(** * gcsproxy: the per-request pipeline of [main.go]

    A shallow embedding of the HTTP handler [proxy], of the helpers it
    calls ([handleError], [setStrHeader], [setIntHeader], [setTimeHeader],
    [isBlocked], [parseBlockIfMeta], [writeMetadataHeaders],
    [parsePassthroughMeta], [clientAcceptsGzip]) and of the access log
    around it ([wrapper], [wrapResponseWriter], [header]), together with the
    parts of the Go libraries they rely on: [strings.Split],
    [strings.Contains], instants of package [time], the [%v] verb of [fmt] on
    a pointer, the canonical form of a header name of [net/textproto], the
    header map and the [ResponseWriter] of [net/http], and the object handle
    of the storage client.

    Go strings are byte sequences, as are Rocq's [string]s.  Go maps are
    [gmap]s, the set [map[string]struct{}] is a [gset].  The storage backend,
    [http.ParseTime] and the formatting of an instant as an HTTP date are
    inputs of the model. *)

From Stdlib Require Import ZArith NArith Ascii DecimalString HexadecimalString.
From stdpp Require Import gmap strings list fin_maps.

Open Scope Z_scope.

(** The line terminator written by [fmt.Fprintln]. *)
Definition newline : string := String (Ascii.ascii_of_nat 10) EmptyString.

(** ** Package [strings] *)
Module Strings.

(** The scan of [strings.Split] for a non-empty separator: [cur] is the part
    being collected, [skip] counts the bytes of a separator that has just
    been recognised and is still to be passed over. *)
Fixpoint split_from (sep : string) (skip : nat) (cur s : string) : list string :=
  match s with
  | EmptyString => [cur]
  | String c s' =>
      match skip with
      | S n => split_from sep n cur s'
      | O =>
          if String.prefix sep s
          then cur :: split_from sep (Nat.pred (String.length sep)) EmptyString s'
          else split_from sep O (cur +:+ String c EmptyString) s'
      end
  end.

(** [strings.Split s sep]: the substrings between the occurrences of [sep],
    scanned from the left.  With an empty separator Go splits after every
    UTF-8 sequence; the program never does that, and the model then splits
    after every byte. *)
Definition Split (s sep : string) : list string :=
  match sep with
  | EmptyString => (fun c => String c EmptyString) <$> String.list_ascii_of_string s
  | _ => split_from sep O EmptyString s
  end.

(** [strings.Contains s substr]. *)
Fixpoint Contains (s substr : string) : bool :=
  String.prefix substr s ||
  match s with
  | EmptyString => false
  | String _ s' => Contains s' substr
  end.

(** [strings.Join elems sep]. *)
Fixpoint Join (elems : list string) (sep : string) : string :=
  match elems with
  | [] => EmptyString
  | [e] => e
  | e :: rest => e +:+ sep +:+ Join rest sep
  end.

End Strings.

(** ** Package [time] *)
Module Time.

(** An instant, in nanoseconds since the zero time (January 1, year 1,
    00:00:00 UTC).  Time zones and the monotonic clock reading play no part
    in [Truncate], [After] and [IsZero]. *)
Definition t : Type := Z.

(** A duration, in nanoseconds. *)
Definition Duration : Type := Z.

Definition Second : Duration := 1000000000.

(** The zero value [time.Time{}]. *)
Definition zero : t := 0.

Definition IsZero (x : t) : bool := x =? 0.

(** [x.Truncate(d)]: [x] rounded down to a multiple of [d] since the zero
    time; [x] itself when [d <= 0]. *)
Definition Truncate (x : t) (d : Duration) : t :=
  if d <=? 0 then x else x - x mod d.

(** [x.After(u)]. *)
Definition After (x u : t) : bool := u <? x.

End Time.

(** ** Errors *)

(** A Go [error] value.  [ErrObjectNotExist] is the sentinel
    [storage.ErrObjectNotExist], which the handler recognises with [==];
    [errorString] is any other error value, with the text of its [Error()]
    (the errors made by [fmt.Errorf] are of this kind). *)
Inductive error : Type :=
| ErrObjectNotExist
| errorString (msg : string).

Definition Error (e : error) : string :=
  match e with
  | ErrObjectNotExist => "storage: object doesn't exist"
  | errorString msg => msg
  end.

(** The result of a library call that returns [(value, err)] with one of the
    two meaningful. *)
Inductive result (A : Type) : Type :=
| Ok (a : A)
| Err (e : error).
Arguments Ok {A} a.
Arguments Err {A} e.

(** ** Package [fmt] and pointers *)

(** A pointer to a variable: its address and the value stored there. *)
Record ptr (A : Type) : Type := Ptr { addr : N; deref : A }.
Arguments Ptr {A} addr deref.
Arguments addr {A} p.
Arguments deref {A} p.

Module Fmt.

(** The verb [%v] on a pointer to a string: the address in lower-case
    hexadecimal after [0x], and [<nil>] for the nil pointer. *)
Definition pointer (a : N) : string :=
  match a with
  | N0 => "<nil>"
  | _ => "0x" +:+ HexadecimalString.NilEmpty.string_of_uint (N.to_hex_uint a)
  end.

End Fmt.

(** ** Package [net/textproto] *)
Module Textproto.

Definition between (lo hi : N) (c : ascii) : bool :=
  (lo <=? N_of_ascii c)%N && (N_of_ascii c <=? hi)%N.

Definition isDigit : ascii -> bool := between 48 57.
Definition isUpper : ascii -> bool := between 65 90.
Definition isLower : ascii -> bool := between 97 122.

(** [validHeaderFieldByte]: the bytes of a token, that is the letters, the
    digits and fifteen marks. *)
Definition validHeaderFieldByte (c : ascii) : bool :=
  isDigit c || isLower c || isUpper c ||
  bool_decide (c ∈ String.list_ascii_of_string "!#$%&'*+-.^_`|~").

Definition toUpper (c : ascii) : ascii := ascii_of_N (N_of_ascii c - 32).
Definition toLower (c : ascii) : ascii := ascii_of_N (N_of_ascii c + 32).

(** The second loop of [canonicalMIMEHeaderKey]: a letter is made upper
    case at the start and after a dash, and lower case elsewhere. *)
Fixpoint canonical_from (upper : bool) (s : string) : string :=
  match s with
  | EmptyString => EmptyString
  | String c s' =>
      let c :=
        if upper && isLower c then toUpper c
        else if negb upper && isUpper c then toLower c
        else c in
      String c (canonical_from (bool_decide (c = "-"%char)) s')
  end.

(** [textproto.CanonicalMIMEHeaderKey]: a key with a byte that is not valid
    in a header field name is returned as it is, any other key in its
    canonical letter case. *)
Definition CanonicalMIMEHeaderKey (s : string) : string :=
  if forallb validHeaderFieldByte (String.list_ascii_of_string s)
  then canonical_from true s
  else s.

End Textproto.

(** ** Package [net/http] *)
Module Http.

(** [http.Header], a map from a header name to its values.  [Add], [Set]
    and [Get] take the name in any letter case and use its canonical form
    as the key; indexing the map directly does not. *)
Abbreviation Header := (gmap string (list string)).

Definition Header_Add (h : Header) (key value : string) : Header :=
  let key := Textproto.CanonicalMIMEHeaderKey key in
  <[key := default [] (h !! key) ++ [value]]> h.

Definition Header_Set (h : Header) (key value : string) : Header :=
  <[Textproto.CanonicalMIMEHeaderKey key := [value]]> h.

Definition Header_Get (h : Header) (key : string) : string :=
  match h !! Textproto.CanonicalMIMEHeaderKey key with
  | Some (v :: _) => v
  | _ => EmptyString
  end.

(** The state of a [ResponseWriter]: the header map the handler edits, the
    status line once it has been written together with the headers sent with
    it, and the body bytes written so far. *)
Record ResponseWriter : Type := {
  hdr : Header;
  sent : option (Z * Header);
  written : string
}.

Definition newResponseWriter : ResponseWriter :=
  {| hdr := ∅; sent := None; written := EmptyString |}.

(** [w.Header().Add(key, value)] and [w.Header().Set(key, value)]. *)
Definition AddHeader (w : ResponseWriter) (key value : string) : ResponseWriter :=
  {| hdr := Header_Add (hdr w) key value; sent := sent w; written := written w |}.

Definition SetHeader (w : ResponseWriter) (key value : string) : ResponseWriter :=
  {| hdr := Header_Set (hdr w) key value; sent := sent w; written := written w |}.

(** The status codes that announce a response without being one: 100 to
    199, except 101. *)
Definition informational (code : Z) : bool :=
  (100 <=? code) && (code <=? 199) && negb (code =? 101).

(** [checkWriteHeaderCode]: the library accepts the codes of three digits
    and panics on any other. *)
Definition checkWriteHeaderCode (code : Z) : bool :=
  (100 <=? code) && (code <=? 999).

(** [w.WriteHeader(code)].  Once a status has been sent the call is ignored.
    Before that, a code that [checkWriteHeaderCode] refuses makes the library
    panic: nothing is sent, and the handler ends there.  The model is one of
    handlers that return and does not follow a panic; the handler of this
    program passes 304, 404 and 500 only, and the properties of a call with
    any code are stated for the codes the library accepts.  An informational
    code is sent at once, as an interim response, and leaves the status of
    the response open; interim responses are not kept in the model.  Any
    other code is sent as the status of the response, with a snapshot of the
    header map. *)
Definition WriteHeader (w : ResponseWriter) (code : Z) : ResponseWriter :=
  match sent w with
  | Some _ => w
  | None =>
      if negb (checkWriteHeaderCode code) then w
      else if informational code then w
      else {| hdr := hdr w; sent := Some (code, hdr w); written := written w |}
  end.

(** [w.Write(data)]: sends status 200 first when no status was written. *)
Definition Write (w : ResponseWriter) (data : string) : ResponseWriter :=
  let w := WriteHeader w 200 in
  {| hdr := hdr w; sent := sent w; written := written w +:+ data |}.

Definition StatusOK : Z := 200.
Definition StatusNotFound : Z := 404.
Definition StatusInternalServerError : Z := 500.

(** [http.Error(w, msg, code)]: two headers are set, then the status and
    the message, ended by a line end, are written.  (Later versions of the
    library first delete [Content-Length], which the handler has not set
    where it reports an error.) *)
Definition Error (w : ResponseWriter) (msg : string) (code : Z) : ResponseWriter :=
  let w := SetHeader w "Content-Type" "text/plain; charset=utf-8" in
  let w := SetHeader w "X-Content-Type-Options" "nosniff" in
  let w := WriteHeader w code in
  Write w (msg +:+ newline).

(** What the client receives once the handler has returned: the status
    (200 when the handler never wrote one), the header map as it stood when
    the status was sent, and the body.  The server writes that map out with
    headers of its own ([Date], [Content-Length] of a short body, ...), with
    the white space around a value trimmed and a line end inside it replaced;
    this last step is not part of the model, and neither is the suppression
    of the body of a [HEAD] request. *)
Record Response : Type := {
  Status : Z;
  Headers : Header;
  Body : string
}.

Definition finish (w : ResponseWriter) : Response :=
  match sent w with
  | Some (code, h) => {| Status := code; Headers := h; Body := written w |}
  | None => {| Status := StatusOK; Headers := hdr w; Body := written w |}
  end.

(** [http.ParseTime text], over the parser [parse] of the three HTTP date
    formats: on failure the result is the zero time together with the
    error. *)
Definition ParseTime (parse : string -> result Time.t) (text : string)
  : Time.t * option error :=
  match parse text with
  | Ok x => (x, None)
  | Err e => (Time.zero, Some e)
  end.

(** The request as the handler sees it: its headers and the path variables
    extracted by the router. *)
Record Request : Type := {
  Header_ : Header;
  Vars : gmap string string
}.

End Http.

(** ** Package [storage] *)
Module Storage.

(** [storage.ObjectAttrs], the fields the handler reads. *)
Record ObjectAttrs : Type := {
  Name : string;
  ContentType : string;
  ContentLanguage : string;
  CacheControl : string;
  ContentDisposition : string;
  Updated : Time.t;
  Metadata : gmap string string
}.

(** [storage.ReaderObjectAttrs], the fields the handler reads. *)
Record ReaderObjectAttrs : Type := {
  Size : Z;
  ContentEncoding : string
}.

(** An open [storage.Reader]: its attributes and the bytes it yields until
    it ends. *)
Record Reader : Type := {
  Attrs : ReaderObjectAttrs;
  content : string
}.

(** [client.Bucket(b).Object(o).ReadCompressed(gz)]. *)
Record ObjectHandle : Type := {
  bucket : string;
  object : string;
  readCompressed : bool
}.

Definition Object (b o : string) : ObjectHandle :=
  {| bucket := b; object := o; readCompressed := false |}.

Definition ReadCompressed (h : ObjectHandle) (compressed : bool) : ObjectHandle :=
  {| bucket := bucket h; object := object h; readCompressed := compressed |}.

(** The backend behind the client: what [obj.Attrs(ctx)] and
    [obj.NewReader(ctx)] return for a handle. *)
Record Client : Type := {
  ObjectAttrsOf : ObjectHandle -> result ObjectAttrs;
  NewReader : ObjectHandle -> result Reader
}.

End Storage.

(** The command-line flags, each a pointer as [flag.String] and [flag.Bool]
    return it. *)
Record Flags : Type := {
  verbose : ptr bool;
  blockIfMeta : ptr string;
  passthroughMeta : ptr string
}.

(** A log line of the standard logger. *)
Definition Log : Type := list string.

(** [strconv.FormatInt(value, 10)]. *)
Definition FormatInt (value : Z) : string :=
  DecimalString.NilZero.string_of_int (Z.to_int value).

(** [io.Copy(w, objr)]: the bytes of the reader are written to the response;
    nothing is written when there are none. *)
Definition io_Copy (w : Http.ResponseWriter) (objr : Storage.Reader) : Http.ResponseWriter :=
  match Storage.content objr with
  | EmptyString => w
  | data => Http.Write w data
  end.

(** ** The handler *)
Section Handler.

(** The global variables of the program: the flags and the storage client. *)
Variable flags : Flags.
Variable client : Storage.Client.

(** The parser of HTTP dates behind [http.ParseTime], and
    [x.UTC().Format(http.TimeFormat)]. *)
Variable parseHTTPDate : string -> result Time.t.
Variable formatHTTPDate : Time.t -> string.

Definition handleError (w : Http.ResponseWriter) (err : option error) : Http.ResponseWriter :=
  match err with
  | Some e =>
      match e with
      | ErrObjectNotExist => Http.Error w (Error e) Http.StatusNotFound
      | _ => Http.Error w (Error e) Http.StatusInternalServerError
      end
  | None => w
  end.

Definition header (r : Http.Request) (key : string) : string * bool :=
  match Http.Header_ r !! key with
  | Some (candidate :: _) => (candidate, true)
  | _ => (EmptyString, false)
  end.

Definition setStrHeader (w : Http.ResponseWriter) (key value : string) : Http.ResponseWriter :=
  if decide (value = EmptyString) then w else Http.AddHeader w key value.

Definition setIntHeader (w : Http.ResponseWriter) (key : string) (value : Z) : Http.ResponseWriter :=
  if 0 <? value then Http.AddHeader w key (FormatInt value) else w.

Definition setTimeHeader (w : Http.ResponseWriter) (key : string) (value : Time.t) : Http.ResponseWriter :=
  if Time.IsZero value then w else Http.AddHeader w key (formatHTTPDate value).

(** [parseBlockIfMeta]: the flag is split on [:].  The error message is
    formatted from [blockIfMeta], the pointer, not from the string it points
    to. *)
Definition parseBlockIfMeta : string * string * option error :=
  match Strings.Split (deref (blockIfMeta flags)) ":" with
  | [key; value] => (key, value, None)
  | _ =>
      (EmptyString, EmptyString,
       Some (errorString ("unexpected block-if argument: "
                          +:+ Fmt.pointer (addr (blockIfMeta flags)))))
  end.

(** [attr.Metadata[key]] is the empty string when the key is missing. *)
Definition isBlocked (attr : Storage.ObjectAttrs) : bool * option error :=
  match parseBlockIfMeta with
  | (_, _, Some err) => (false, Some err)
  | (key, value, None) =>
      (bool_decide (default EmptyString (Storage.Metadata attr !! key) = value), None)
  end.

(** [parsePassthroughMeta]: every part of the flag, split on commas, is put
    into the set. *)
Definition parsePassthroughMeta : gset string :=
  foldl (fun set meta => {[meta]} ∪ set) ∅
        (Strings.Split (deref (passthroughMeta flags)) ",").

Definition prefix : string := "X-Goog-Meta-".

(** The body of the loop of [writeMetadataHeaders], for one entry. *)
Definition passthroughEntry (metaToPass : gset string) (w : Http.ResponseWriter)
    (kv : string * string) : Http.ResponseWriter :=
  if decide (kv.1 ∈ metaToPass) then setStrHeader w (prefix +:+ kv.1) kv.2 else w.

(** The loop of [writeMetadataHeaders] over the entries of the metadata in
    the order [entries]. *)
Definition writeMetadataHeaders_range (entries : list (string * string))
    (w : Http.ResponseWriter) : Http.ResponseWriter :=
  foldl (passthroughEntry parsePassthroughMeta) w entries.

(** [writeMetadataHeaders].  Go ranges over a map in an unspecified order;
    the model takes the order of [map_to_list].  The order shows in one
    place only, the order of the values of a header that several keys are
    written under, and the properties of such values are stated up to their
    order ([writeMetadataHeaders_range_carries] holds for every order). *)
Definition writeMetadataHeaders (attr : Storage.ObjectAttrs) (w : Http.ResponseWriter)
  : Http.ResponseWriter :=
  writeMetadataHeaders_range (map_to_list (Storage.Metadata attr)) w.

Definition clientAcceptsGzip (r : Http.Request) : bool :=
  let acceptHeader := Http.Header_Get (Http.Header_ r) "Accept-Encoding" in
  Strings.Contains acceptHeader "gzip".

(** The handle [obj] of [proxy]. *)
Definition objectOf (r : Http.Request) : Storage.ObjectHandle :=
  let params := Http.Vars r in
  let gzipAcceptable := clientAcceptsGzip r in
  Storage.ReadCompressed
    (Storage.Object (default EmptyString (params !! "bucket"))
                    (default EmptyString (params !! "object")))
    gzipAcceptable.

(** The conditional-GET block of [proxy]: the writer, the lines logged, and
    whether the handler returns here. *)
Definition ifModifiedSince (attr : Storage.ObjectAttrs) (r : Http.Request)
    (w : Http.ResponseWriter) : Http.ResponseWriter * Log * bool :=
  match Http.Header_ r !! "If-Modified-Since" with
  | Some (lastStr :: _) =>
      let '(last, err) := Http.ParseTime parseHTTPDate lastStr in
      let log :=
        match err with
        | Some e =>
            if deref (verbose flags)
            then ["could not parse If-Modified-Since: " +:+ Error e]
            else []
        | None => []
        end in
      if negb (Time.After (Time.Truncate (Storage.Updated attr) Time.Second) last)
      then (Http.WriteHeader w 304, log, true)
      else (w, log, false)
  | _ => (w, [], false)
  end.

(** The seven header setters at the end of [proxy]. *)
Definition contentHeaders (attr : Storage.ObjectAttrs) (objr : Storage.Reader)
    (w : Http.ResponseWriter) : Http.ResponseWriter :=
  let w := setTimeHeader w "Last-Modified" (Storage.Updated attr) in
  let w := setStrHeader w "Content-Type" (Storage.ContentType attr) in
  let w := setStrHeader w "Content-Language" (Storage.ContentLanguage attr) in
  let w := setStrHeader w "Cache-Control" (Storage.CacheControl attr) in
  let w := setStrHeader w "Content-Encoding" (Storage.ContentEncoding (Storage.Attrs objr)) in
  let w := setStrHeader w "Content-Disposition" (Storage.ContentDisposition attr) in
  setIntHeader w "Content-Length" (Storage.Size (Storage.Attrs objr)).

(** The tail of [proxy], from [obj.NewReader] on. *)
Definition serveContent (obj : Storage.ObjectHandle) (attr : Storage.ObjectAttrs)
    (w : Http.ResponseWriter) : Http.ResponseWriter :=
  match Storage.NewReader client obj with
  | Err err => handleError w (Some err)
  | Ok objr => io_Copy (contentHeaders attr objr w) objr
  end.

(** [proxy]: the writer after the handler has returned, and the lines it
    logged. *)
Definition proxy (w : Http.ResponseWriter) (r : Http.Request) : Http.ResponseWriter * Log :=
  let obj := objectOf r in
  match Storage.ObjectAttrsOf client obj with
  | Err err => (handleError w (Some err), [])
  | Ok attr =>
      match isBlocked attr with
      | (_, Some err) => (handleError w (Some err), [])
      | (true, None) =>
          (Http.WriteHeader w 404,
           if deref (verbose flags)
           then ["Object " +:+ Storage.Name attr +:+ " is blocked"]
           else [])
      | (false, None) =>
          let w := writeMetadataHeaders attr w in
          let '(w, log, returned) := ifModifiedSince attr r w in
          if returned then (w, log) else (serveContent obj attr w, log)
      end
  end.

(** The response to a request: [proxy] run on a fresh writer. *)
Definition respond (r : Http.Request) : Http.Response :=
  Http.finish (proxy Http.newResponseWriter r).1.

(** *** Notions used to state the properties *)

(** Whether the conditional-GET block ends the request with 304. *)
Definition notModified (attr : Storage.ObjectAttrs) (r : Http.Request) : bool :=
  (ifModifiedSince attr r Http.newResponseWriter).2.

(** The names of the headers set at the end of [proxy]. *)
Definition attributeHeaders : list string :=
  ["Last-Modified"; "Content-Type"; "Content-Language"; "Cache-Control";
   "Content-Encoding"; "Content-Disposition"; "Content-Length"].

(** The request [r] without its [If-Modified-Since] header. *)
Definition withoutIfModifiedSince (r : Http.Request) : Http.Request :=
  {| Http.Header_ := delete "If-Modified-Since" (Http.Header_ r);
     Http.Vars := Http.Vars r |}.

(** The values expected under a header set from the string [source]. *)
Definition strHeader (source : string) : option (list string) :=
  if decide (source = EmptyString) then None else Some [source].

End Handler.

(** The byte [c] does not occur in [s]. *)
Fixpoint free_of (c : ascii) (s : string) : Prop :=
  match s with
  | EmptyString => True
  | String a s' => a <> c /\ free_of c s'
  end.

(** The values under a header name once [vs] have been added to it. *)
Definition extend (old : option (list string)) (vs : list string) : option (list string) :=
  match vs with
  | [] => old
  | _ => Some (default [] old ++ vs)
  end.

(** The values that the loop of [writeMetadataHeaders], visiting [entries]
    in their order, writes under the header [name]: the values of the
    entries whose key is whitelisted, whose value is not empty and whose
    prefixed key has [name] as canonical form. *)
Definition passthroughValues (metaToPass : gset string) (entries : list (string * string))
    (name : string) : list string :=
  (filter (fun kv => Textproto.CanonicalMIMEHeaderKey (prefix +:+ kv.1) = name /\
                     kv.1 ∈ metaToPass /\ kv.2 <> EmptyString) entries).*2.

(** The same for the metadata of an object under the flags. *)
Definition metaValues (flags : Flags) (attr : Storage.ObjectAttrs) (name : string)
  : list string :=
  passthroughValues (parsePassthroughMeta flags) (map_to_list (Storage.Metadata attr)) name.

(** A header carries the values [expected] when it is absent and there are
    none, or present with those values in some order.  Go visits a map in
    an order that is not specified, so the order of the values of several
    keys under one header is not determined. *)
Definition carries (header : option (list string)) (expected : list string) : Prop :=
  match header with
  | None => expected = []
  | Some vs => vs <> [] /\ vs ≡ₚ expected
  end.

(** The status [handleError] chooses for an error. *)
Definition errorStatus (e : error) : Z :=
  match e with
  | ErrObjectNotExist => 404
  | errorString _ => 500
  end.

(** ** The access log: [wrapResponseWriter] and [wrapper]

    [wrapper] hands its handler a [wrapResponseWriter] in place of the
    server's writer, so the handler has to be run on either.  Below, the
    handler is written once more over the operations of the
    [http.ResponseWriter] interface, line by line as above;
    [proxy_on_plain] shows that on the server's writer it is [proxy]. *)

(** The operations of a [http.ResponseWriter] that the handler uses:
    [w.Header().Add], [w.Header().Set], [w.WriteHeader] and [w.Write]. *)
Record Writer (W : Type) : Type := {
  wAddHeader : W -> string -> string -> W;
  wSetHeader : W -> string -> string -> W;
  wWriteHeader : W -> Z -> W;
  wWrite : W -> string -> W
}.
Arguments wAddHeader {W} _ _ _ _.
Arguments wSetHeader {W} _ _ _ _.
Arguments wWriteHeader {W} _ _ _.
Arguments wWrite {W} _ _ _.

(** The server's writer. *)
Definition plainWriter : Writer Http.ResponseWriter :=
  {| wAddHeader := Http.AddHeader;
     wSetHeader := Http.SetHeader;
     wWriteHeader := Http.WriteHeader;
     wWrite := Http.Write |}.

(** [wrapResponseWriter]: the embedded writer and the recorded status. *)
Record wrapResponseWriter : Type := {
  ResponseWriter : Http.ResponseWriter;
  status : Z
}.

(** The method [WriteHeader] of [wrapResponseWriter]: the call is passed on
    and then the status recorded, at every call (that returns: see
    [Http.WriteHeader]). *)
Definition wrap_WriteHeader (w : wrapResponseWriter) (code : Z) : wrapResponseWriter :=
  {| ResponseWriter := Http.WriteHeader (ResponseWriter w) code; status := code |}.

(** A [wrapResponseWriter] as a writer: [Header] and [Write] are those of
    the embedded writer, [WriteHeader] is the method above. *)
Definition wrapWriter : Writer wrapResponseWriter :=
  {| wAddHeader w key value :=
       {| ResponseWriter := Http.AddHeader (ResponseWriter w) key value; status := status w |};
     wSetHeader w key value :=
       {| ResponseWriter := Http.SetHeader (ResponseWriter w) key value; status := status w |};
     wWriteHeader := wrap_WriteHeader;
     wWrite w data :=
       {| ResponseWriter := Http.Write (ResponseWriter w) data; status := status w |} |}.

Section HandlerOn.

Variable W : Type.
Variable ops : Writer W.
Variable flags : Flags.
Variable client : Storage.Client.
Variable parseHTTPDate : string -> result Time.t.
Variable formatHTTPDate : Time.t -> string.

Definition http_Error_on (w : W) (msg : string) (code : Z) : W :=
  let w := wSetHeader ops w "Content-Type" "text/plain; charset=utf-8" in
  let w := wSetHeader ops w "X-Content-Type-Options" "nosniff" in
  let w := wWriteHeader ops w code in
  wWrite ops w (msg +:+ newline).

Definition io_Copy_on (w : W) (objr : Storage.Reader) : W :=
  match Storage.content objr with
  | EmptyString => w
  | data => wWrite ops w data
  end.

Definition handleError_on (w : W) (err : option error) : W :=
  match err with
  | Some e =>
      match e with
      | ErrObjectNotExist => http_Error_on w (Error e) Http.StatusNotFound
      | _ => http_Error_on w (Error e) Http.StatusInternalServerError
      end
  | None => w
  end.

Definition setStrHeader_on (w : W) (key value : string) : W :=
  if decide (value = EmptyString) then w else wAddHeader ops w key value.

Definition setIntHeader_on (w : W) (key : string) (value : Z) : W :=
  if 0 <? value then wAddHeader ops w key (FormatInt value) else w.

Definition setTimeHeader_on (w : W) (key : string) (value : Time.t) : W :=
  if Time.IsZero value then w else wAddHeader ops w key (formatHTTPDate value).

Definition passthroughEntry_on (metaToPass : gset string) (w : W) (kv : string * string) : W :=
  if decide (kv.1 ∈ metaToPass) then setStrHeader_on w (prefix +:+ kv.1) kv.2 else w.

Definition writeMetadataHeaders_on (attr : Storage.ObjectAttrs) (w : W) : W :=
  foldl (passthroughEntry_on (parsePassthroughMeta flags)) w
        (map_to_list (Storage.Metadata attr)).

Definition ifModifiedSince_on (attr : Storage.ObjectAttrs) (r : Http.Request) (w : W)
  : W * Log * bool :=
  match Http.Header_ r !! "If-Modified-Since" with
  | Some (lastStr :: _) =>
      let '(last, err) := Http.ParseTime parseHTTPDate lastStr in
      let log :=
        match err with
        | Some e =>
            if deref (verbose flags)
            then ["could not parse If-Modified-Since: " +:+ Error e]
            else []
        | None => []
        end in
      if negb (Time.After (Time.Truncate (Storage.Updated attr) Time.Second) last)
      then (wWriteHeader ops w 304, log, true)
      else (w, log, false)
  | _ => (w, [], false)
  end.

Definition contentHeaders_on (attr : Storage.ObjectAttrs) (objr : Storage.Reader) (w : W) : W :=
  let w := setTimeHeader_on w "Last-Modified" (Storage.Updated attr) in
  let w := setStrHeader_on w "Content-Type" (Storage.ContentType attr) in
  let w := setStrHeader_on w "Content-Language" (Storage.ContentLanguage attr) in
  let w := setStrHeader_on w "Cache-Control" (Storage.CacheControl attr) in
  let w := setStrHeader_on w "Content-Encoding" (Storage.ContentEncoding (Storage.Attrs objr)) in
  let w := setStrHeader_on w "Content-Disposition" (Storage.ContentDisposition attr) in
  setIntHeader_on w "Content-Length" (Storage.Size (Storage.Attrs objr)).

Definition serveContent_on (obj : Storage.ObjectHandle) (attr : Storage.ObjectAttrs) (w : W) : W :=
  match Storage.NewReader client obj with
  | Err err => handleError_on w (Some err)
  | Ok objr => io_Copy_on (contentHeaders_on attr objr w) objr
  end.

(** [proxy] over the writer operations [ops]. *)
Definition proxy_on (w : W) (r : Http.Request) : W * Log :=
  let obj := objectOf r in
  match Storage.ObjectAttrsOf client obj with
  | Err err => (handleError_on w (Some err), [])
  | Ok attr =>
      match isBlocked flags attr with
      | (_, Some err) => (handleError_on w (Some err), [])
      | (true, None) =>
          (wWriteHeader ops w 404,
           if deref (verbose flags)
           then ["Object " +:+ Storage.Name attr +:+ " is blocked"]
           else [])
      | (false, None) =>
          let w := writeMetadataHeaders_on attr w in
          let '(w, log, returned) := ifModifiedSince_on attr r w in
          if returned then (w, log) else (serveContent_on obj attr w, log)
      end
  end.

End HandlerOn.

(** The parts of a request that only [wrapper] reads, beside the request
    as the handler sees it. *)
Record ServerRequest : Type := {
  request : Http.Request;
  RemoteAddr : string;
  Method : string;
  URL : string
}.

(** The access line [log.Printf("[%s] %.3f %d %s %s", ...)]; [elapsed] is
    the elapsed time as [%.3f] prints its seconds. *)
Definition accessLine (addr elapsed : string) (code : Z) (method url : string) : string :=
  "[" +:+ addr +:+ "] " +:+ elapsed +:+ " " +:+ FormatInt code +:+ " " +:+ method
      +:+ " " +:+ url.

(** [wrapper fn], run on the server's writer [w] and the request [r].  The
    handler [fn] gets a [wrapResponseWriter] whose status starts at 200 and
    returns it with the lines it logged.  [proc] and [now] are the two
    readings of the clock and [formatSeconds] prints a duration as [%.3f]
    prints its seconds.  The result is the server's writer after the handler
    and all the lines logged. *)
Definition wrapper (flags : Flags) (formatSeconds : Time.Duration -> string)
    (fn : wrapResponseWriter -> Http.Request -> wrapResponseWriter * Log)
    (proc now : Time.t) (w : Http.ResponseWriter) (r : ServerRequest)
  : Http.ResponseWriter * Log :=
  let writer := {| ResponseWriter := w; status := Http.StatusOK |} in
  let '(writer, lines) := fn writer (request r) in
  let addr :=
    match header (request r) "X-Forwarded-For" with
    | (ip, true) => ip
    | (_, false) => RemoteAddr r
    end in
  (ResponseWriter writer,
   lines ++
   if deref (verbose flags)
   then [accessLine addr (formatSeconds (now - proc)) (status writer) (Method r) (URL r)]
   else []).

(** ** Sample data

    A configuration, a backend holding one object [b1/a.txt], and requests
    for it, on which the properties below are exercised. *)
Module Sample.

(** The flags [-block-if rule -pass-through passthrough], with the addresses
    of the three flag variables. *)
Definition flags (rule passthrough : string) : Flags :=
  {| verbose := Ptr 0xc00001a050%N false;
     blockIfMeta := Ptr 0xc00001a060%N rule;
     passthroughMeta := Ptr 0xc00001a070%N passthrough |}.

(** 2015-10-21 07:28:00 UTC. *)
Definition date : string := "Wed, 21 Oct 2015 07:28:00 GMT".
Definition instant : Time.t := 63581009280 * Time.Second.

(** The two library functions, on the dates that occur below: [date] is
    the one well-formed date, and the zero time is the other instant that
    is formatted. *)
Definition parseHTTPDate (text : string) : result Time.t :=
  if decide (text = date) then Ok instant
  else Err (errorString ("parsing time: " +:+ text)).

Definition formatHTTPDate (x : Time.t) : string :=
  if decide (Time.Truncate x Time.Second = instant) then date
  else "Mon, 01 Jan 0001 00:00:00 GMT".

Definition attrs (metadata : gmap string string) (updated : Time.t) : Storage.ObjectAttrs :=
  {| Storage.Name := "a.txt";
     Storage.ContentType := "text/plain";
     Storage.ContentLanguage := EmptyString;
     Storage.CacheControl := "no-cache";
     Storage.ContentDisposition := EmptyString;
     Storage.Updated := updated;
     Storage.Metadata := metadata |}.

Definition reader : Storage.Reader :=
  {| Storage.Attrs := {| Storage.Size := 5; Storage.ContentEncoding := EmptyString |};
     Storage.content := "hello" |}.

Definition holds (h : Storage.ObjectHandle) : bool :=
  bool_decide (Storage.bucket h = "b1" /\ Storage.object h = "a.txt").

(** A backend with the object [b1/a.txt] and nothing else. *)
Definition client (metadata : gmap string string) (updated : Time.t) : Storage.Client :=
  {| Storage.ObjectAttrsOf h :=
       if holds h then Ok (attrs metadata updated) else Err ErrObjectNotExist;
     Storage.NewReader h :=
       if holds h then Ok reader else Err ErrObjectNotExist |}.

(** A backend whose object [b1/a.txt] has attributes but cannot be read. *)
Definition unreadable (metadata : gmap string string) (updated : Time.t) (e : error)
  : Storage.Client :=
  {| Storage.ObjectAttrsOf h :=
       if holds h then Ok (attrs metadata updated) else Err ErrObjectNotExist;
     Storage.NewReader h := Err e |}.

(** [GET /b1/a.txt] and [GET /b1/missing] with the given headers. *)
Definition request (headers : Http.Header) : Http.Request :=
  {| Http.Header_ := headers;
     Http.Vars := <["bucket" := "b1"]> (<["object" := "a.txt"]> ∅) |}.

Definition requestMissing (headers : Http.Header) : Http.Request :=
  {| Http.Header_ := headers;
     Http.Vars := <["bucket" := "b1"]> (<["object" := "missing"]> ∅) |}.

Definition ifModifiedSinceHeader (value : string) : Http.Header :=
  {["If-Modified-Since" := [value]]}.

Definition metadata : gmap string string :=
  <["Blocked" := "false"]> (<["Owner" := "ops"]> ∅).

(** Metadata with two keys that differ in letter case only. *)
Definition twoOwners : gmap string string :=
  <["owner" := "alice"]> (<["Owner" := "bob"]> ∅).

(** The response to [GET /b1/a.txt] with the given headers, under the given
    flags, for the object with the given metadata and update time. *)
Definition response (rule passthrough : string) (md : gmap string string)
    (updated : Time.t) (headers : Http.Header) : Http.Response :=
  respond (flags rule passthrough) (client md updated) parseHTTPDate formatHTTPDate
          (request headers).

(** The flags of [flags] with [-v]. *)
Definition verboseFlags (rule passthrough : string) : Flags :=
  {| verbose := Ptr 0xc00001a050%N true;
     blockIfMeta := Ptr 0xc00001a060%N rule;
     passthroughMeta := Ptr 0xc00001a070%N passthrough |}.

(** [GET /b1/a.txt] as the server receives it from [10.0.0.7:51234], with
    the given headers. *)
Definition serverRequest (headers : Http.Header) : ServerRequest :=
  Build_ServerRequest (request headers) "10.0.0.7:51234" "GET" "/b1/a.txt".

(** The seconds of a duration as [%.3f] prints them, on the one duration
    that occurs below. *)
Definition formatSeconds (d : Time.Duration) : string :=
  if decide (d = 12000000) then "0.012" else "0.000".

End Sample.

(** * Properties *)

Lemma append_empty_r (s : string) : s +:+ EmptyString = s.
Proof.
  induction s as [|a s IH]; [reflexivity|].
  change (String a (s +:+ EmptyString) = String a s). now rewrite IH.
Qed.

(** ** [strings.Split] and [strings.Contains] *)

Example Split_rule : Strings.Split "Blocked:true" ":" = ["Blocked"; "true"].
Proof. reflexivity. Qed.

Example Split_empty : Strings.Split EmptyString ":" = [EmptyString].
Proof. reflexivity. Qed.

Example Split_three : Strings.Split "a:b:" ":" = ["a"; "b"; EmptyString].
Proof. reflexivity. Qed.

Example Split_long_separator : Strings.Split "a, b,, c" ", " = ["a"; "b,"; "c"].
Proof. reflexivity. Qed.

Example Split_overlap : Strings.Split "aaaa" "aa" = [EmptyString; EmptyString; EmptyString].
Proof. reflexivity. Qed.

Example Contains_gzip : Strings.Contains "deflate, gzip;q=0.5" "gzip" = true.
Proof. reflexivity. Qed.

Example Contains_short : Strings.Contains "gzi" "gzip" = false.
Proof. reflexivity. Qed.

Lemma prefix_char c a s :
  String.prefix (String c EmptyString) (String a s) = bool_decide (c = a).
Proof.
  simpl. destruct (ascii_dec c a) as [->|Hne].
  - rewrite bool_decide_eq_true_2 by reflexivity. now destruct s.
  - now rewrite bool_decide_eq_false_2.
Qed.

Lemma append_char_assoc cur a s :
  (cur +:+ String a EmptyString) +:+ s = cur +:+ String a s.
Proof.
  induction cur as [|b cur IH]; [reflexivity|].
  change (String b ((cur +:+ String a EmptyString) +:+ s) = String b (cur +:+ String a s)).
  now rewrite IH.
Qed.

(** A string without the separator is one part. *)
Lemma split_from_free c cur s :
  free_of c s ->
  Strings.split_from (String c EmptyString) O cur s = [cur +:+ s].
Proof.
  revert cur. induction s as [|a s IH]; intros cur Hfree.
  - simpl. now rewrite append_empty_r.
  - destruct Hfree as [Hne Hfree].
    cbn [Strings.split_from]. rewrite prefix_char.
    rewrite bool_decide_eq_false_2 by congruence.
    rewrite IH by assumption. now rewrite append_char_assoc.
Qed.

(** The first part ends at the first separator. *)
Lemma split_from_sep c cur k rest :
  free_of c k ->
  Strings.split_from (String c EmptyString) O cur (k +:+ String c rest)
  = (cur +:+ k) :: Strings.split_from (String c EmptyString) O EmptyString rest.
Proof.
  revert cur. induction k as [|a k IH]; intros cur Hfree.
  - change (EmptyString +:+ String c rest) with (String c rest).
    cbn [Strings.split_from]. rewrite prefix_char.
    rewrite bool_decide_eq_true_2 by reflexivity. simpl.
    now rewrite append_empty_r.
  - destruct Hfree as [Hne Hfree].
    change (String a k +:+ String c rest) with (String a (k +:+ String c rest)).
    cbn [Strings.split_from]. rewrite prefix_char.
    rewrite bool_decide_eq_false_2 by congruence.
    rewrite IH by assumption. now rewrite append_char_assoc.
Qed.

(** A flag of the form [key:value], with no colon in [key] and [value],
    splits into the two. *)
Lemma Split_key_value key value :
  free_of ":"%char key -> free_of ":"%char value ->
  Strings.Split (key +:+ ":" +:+ value) ":" = [key; value].
Proof.
  intros Hk Hv. unfold Strings.Split.
  change (":" +:+ value) with (String ":"%char value).
  rewrite split_from_sep by assumption.
  now rewrite split_from_free by assumption.
Qed.

(** ** The response writer *)

Example canonical_lower :
  Textproto.CanonicalMIMEHeaderKey "x-goog-meta-OWNER" = "X-Goog-Meta-Owner".
Proof. reflexivity. Qed.

Example canonical_marks :
  Textproto.CanonicalMIMEHeaderKey "X-Goog-Meta-ab_cD-e" = "X-Goog-Meta-Ab_cd-E".
Proof. reflexivity. Qed.

Example canonical_invalid :
  Textproto.CanonicalMIMEHeaderKey "X-Goog-Meta-my key" = "X-Goog-Meta-my key".
Proof. reflexivity. Qed.

Lemma checkWriteHeaderCode_range code :
  Http.checkWriteHeaderCode code = true <-> 100 <= code <= 999.
Proof. unfold Http.checkWriteHeaderCode. rewrite andb_true_iff. lia. Qed.

Lemma finish_WriteHeader w code :
  Http.sent w = None ->
  Http.checkWriteHeaderCode code = true ->
  Http.informational code = false ->
  Http.finish (Http.WriteHeader w code)
  = {| Http.Status := code; Http.Headers := Http.hdr w; Http.Body := Http.written w |}.
Proof.
  intros Hs Hv Hc. unfold Http.finish, Http.WriteHeader. rewrite Hs, Hv, Hc. reflexivity.
Qed.

Lemma finish_Error w msg code :
  Http.sent w = None ->
  Http.checkWriteHeaderCode code = true ->
  Http.informational code = false ->
  Http.finish (Http.Error w msg code)
  = {| Http.Status := code;
       Http.Headers :=
         Http.Header_Set
           (Http.Header_Set (Http.hdr w) "Content-Type" "text/plain; charset=utf-8")
           "X-Content-Type-Options" "nosniff";
       Http.Body := Http.written w +:+ (msg +:+ newline) |}.
Proof.
  intros Hs Hv Hc. unfold Http.finish, Http.Error, Http.Write, Http.WriteHeader. simpl.
  rewrite Hs, Hv, Hc. reflexivity.
Qed.

Lemma finish_unsent w :
  Http.sent w = None ->
  Http.finish w
  = {| Http.Status := 200; Http.Headers := Http.hdr w; Http.Body := Http.written w |}.
Proof. intros Hs. unfold Http.finish. rewrite Hs. reflexivity. Qed.

Lemma finish_io_Copy w objr :
  Http.sent w = None ->
  Http.finish (io_Copy w objr)
  = {| Http.Status := 200; Http.Headers := Http.hdr w;
       Http.Body := Http.written w +:+ Storage.content objr |}.
Proof.
  intros Hs. unfold io_Copy. destruct (Storage.content objr) as [|c data] eqn:Hc.
  - rewrite finish_unsent by assumption. now rewrite append_empty_r.
  - unfold Http.finish, Http.Write, Http.WriteHeader. rewrite Hs. reflexivity.
Qed.

(** The header setters touch the header map only. *)

Lemma setStrHeader_sent w key value : Http.sent (setStrHeader w key value) = Http.sent w.
Proof. unfold setStrHeader. case_decide; reflexivity. Qed.

Lemma setStrHeader_written w key value :
  Http.written (setStrHeader w key value) = Http.written w.
Proof. unfold setStrHeader. case_decide; reflexivity. Qed.

Lemma setIntHeader_sent w key value : Http.sent (setIntHeader w key value) = Http.sent w.
Proof. unfold setIntHeader. destruct (0 <? value); reflexivity. Qed.

Lemma setIntHeader_written w key value :
  Http.written (setIntHeader w key value) = Http.written w.
Proof. unfold setIntHeader. destruct (0 <? value); reflexivity. Qed.

Lemma setTimeHeader_sent formatHTTPDate w key value :
  Http.sent (setTimeHeader formatHTTPDate w key value) = Http.sent w.
Proof. unfold setTimeHeader. destruct (Time.IsZero value); reflexivity. Qed.

Lemma setTimeHeader_written formatHTTPDate w key value :
  Http.written (setTimeHeader formatHTTPDate w key value) = Http.written w.
Proof. unfold setTimeHeader. destruct (Time.IsZero value); reflexivity. Qed.

(** What a setter leaves under a header name. *)
(** A literal header name is not changed by the canonical form of another. *)
Ltac canon_ne := let Hc := fresh "Hc" in intros Hc; vm_compute in Hc; discriminate Hc.

Lemma extend_extend (old : option (list string)) (vs1 vs2 : list string) :
  extend (extend old vs1) vs2 = extend old (vs1 ++ vs2).
Proof.
  destruct vs1 as [|v1 vs1]; [reflexivity|].
  destruct vs2 as [|v2 vs2]; simpl; [now rewrite app_nil_r|].
  now rewrite <- app_assoc.
Qed.

Lemma Header_Add_lookup (h : Http.Header) key value name :
  Http.Header_Add h key value !! name
  = if decide (Textproto.CanonicalMIMEHeaderKey key = name)
    then Some (default [] (h !! name) ++ [value]) else h !! name.
Proof.
  unfold Http.Header_Add. rewrite lookup_insert. case_decide; [subst|]; reflexivity.
Qed.

Lemma setStrHeader_lookup w key value name :
  Http.hdr (setStrHeader w key value) !! name
  = if decide (Textproto.CanonicalMIMEHeaderKey key = name /\ value <> EmptyString)
    then Some (default [] (Http.hdr w !! name) ++ [value])
    else Http.hdr w !! name.
Proof.
  unfold setStrHeader. destruct (decide (value = EmptyString)) as [Hv|Hv]; simpl.
  - case_decide as H; [destruct H; contradiction | reflexivity].
  - rewrite Header_Add_lookup. repeat case_decide; try reflexivity; tauto.
Qed.

Lemma setIntHeader_lookup w key value name :
  Http.hdr (setIntHeader w key value) !! name
  = if decide (Textproto.CanonicalMIMEHeaderKey key = name /\ 0 < value)
    then Some (default [] (Http.hdr w !! name) ++ [FormatInt value])
    else Http.hdr w !! name.
Proof.
  unfold setIntHeader. destruct (Z.ltb_spec 0 value) as [Hv|Hv]; simpl.
  - rewrite Header_Add_lookup. repeat case_decide; try reflexivity; tauto.
  - case_decide as H; [destruct H; lia | reflexivity].
Qed.

Lemma setTimeHeader_lookup formatHTTPDate w key value name :
  Http.hdr (setTimeHeader formatHTTPDate w key value) !! name
  = if decide (Textproto.CanonicalMIMEHeaderKey key = name /\ value <> Time.zero)
    then Some (default [] (Http.hdr w !! name) ++ [formatHTTPDate value])
    else Http.hdr w !! name.
Proof.
  unfold setTimeHeader, Time.IsZero, Time.zero.
  destruct (Z.eqb_spec value 0) as [Hv|Hv]; simpl.
  - case_decide as H; [destruct H; contradiction | reflexivity].
  - rewrite Header_Add_lookup. repeat case_decide; try reflexivity; tauto.
Qed.

(** The canonical form of a prefixed metadata key is the prefix followed by
    the canonical form of the key: two keys share a header exactly when
    their canonical forms are the same. *)
Lemma canonical_prefix k :
  Textproto.CanonicalMIMEHeaderKey (prefix +:+ k)
  = prefix +:+ Textproto.CanonicalMIMEHeaderKey k.
Proof.
  assert (Hvalid : forallb Textproto.validHeaderFieldByte
                     (String.list_ascii_of_string (prefix +:+ k))
                   = forallb Textproto.validHeaderFieldByte (String.list_ascii_of_string k))
    by reflexivity.
  unfold Textproto.CanonicalMIMEHeaderKey. rewrite Hvalid.
  now destruct (forallb Textproto.validHeaderFieldByte (String.list_ascii_of_string k)).
Qed.

(** ** The loop over the metadata *)
Section Passthrough.

Variable metaToPass : gset string.

Lemma passthroughEntry_sent w kv :
  Http.sent (passthroughEntry metaToPass w kv) = Http.sent w.
Proof. unfold passthroughEntry. case_decide; [apply setStrHeader_sent | reflexivity]. Qed.

Lemma passthroughEntry_written w kv :
  Http.written (passthroughEntry metaToPass w kv) = Http.written w.
Proof. unfold passthroughEntry. case_decide; [apply setStrHeader_written | reflexivity]. Qed.

Lemma passthroughEntry_lookup w kv name :
  Http.hdr (passthroughEntry metaToPass w kv) !! name
  = extend (Http.hdr w !! name) (passthroughValues metaToPass [kv] name).
Proof.
  unfold passthroughEntry, passthroughValues. rewrite filter_cons, filter_nil.
  destruct (decide (kv.1 ∈ metaToPass)) as [Hin|Hin].
  - rewrite setStrHeader_lookup. repeat case_decide; try reflexivity; tauto.
  - case_decide; [tauto | reflexivity].
Qed.

Lemma range_sent entries w :
  Http.sent (foldl (passthroughEntry metaToPass) w entries) = Http.sent w.
Proof.
  revert w. induction entries as [|kv entries IH]; intros w; simpl; [reflexivity|].
  rewrite IH. apply passthroughEntry_sent.
Qed.

Lemma range_written entries w :
  Http.written (foldl (passthroughEntry metaToPass) w entries) = Http.written w.
Proof.
  revert w. induction entries as [|kv entries IH]; intros w; simpl; [reflexivity|].
  rewrite IH. apply passthroughEntry_written.
Qed.

Lemma passthroughValues_cons kv entries name :
  passthroughValues metaToPass (kv :: entries) name
  = passthroughValues metaToPass [kv] name ++ passthroughValues metaToPass entries name.
Proof.
  unfold passthroughValues. rewrite !filter_cons, filter_nil.
  now case_decide.
Qed.

(** After the loop, a header name holds the values it held before,
    followed by the values of the entries written under it, in the order
    the entries were visited. *)
Lemma range_lookup entries w name :
  Http.hdr (foldl (passthroughEntry metaToPass) w entries) !! name
  = extend (Http.hdr w !! name) (passthroughValues metaToPass entries name).
Proof.
  revert w. induction entries as [|kv entries IH]; intros w; [reflexivity|].
  cbn [foldl]. rewrite IH, passthroughEntry_lookup, extend_extend.
  now rewrite <- passthroughValues_cons.
Qed.

Lemma passthroughValues_elem entries name v :
  v ∈ passthroughValues metaToPass entries name <->
  exists k, (k, v) ∈ entries /\ k ∈ metaToPass /\ v <> EmptyString /\
            Textproto.CanonicalMIMEHeaderKey (prefix +:+ k) = name.
Proof.
  unfold passthroughValues. rewrite list_elem_of_fmap. split.
  - intros ([k v'] & Hv & Hin). simpl in Hv. subst v'.
    apply list_elem_of_filter in Hin as [(Hname & Hpass & Hne) Hin]. simpl in *.
    now exists k.
  - intros (k & Hin & Hpass & Hne & Hname). exists (k, v). split; [reflexivity|].
    apply list_elem_of_filter. now repeat split.
Qed.

(** Two enumerations of the same entries give the same values up to their
    order. *)
Lemma passthroughValues_perm entries1 entries2 name :
  entries1 ≡ₚ entries2 ->
  passthroughValues metaToPass entries1 name ≡ₚ passthroughValues metaToPass entries2 name.
Proof. intros Hperm. unfold passthroughValues. now rewrite Hperm. Qed.

(** Among entries with distinct keys, an entry that is the only one written
    under its header name gives the header its value alone. *)
Lemma passthroughValues_single entries name k v :
  NoDup entries.*1 ->
  (k, v) ∈ entries -> k ∈ metaToPass -> v <> EmptyString ->
  Textproto.CanonicalMIMEHeaderKey (prefix +:+ k) = name ->
  (forall k' v', (k', v') ∈ entries -> k' ∈ metaToPass -> v' <> EmptyString ->
                 Textproto.CanonicalMIMEHeaderKey (prefix +:+ k') = name -> k' = k) ->
  passthroughValues metaToPass entries name = [v].
Proof.
  intros Hnd Hin Hpass Hne Hname Honly.
  assert (Hnone : forall l, (forall v', (k, v') ∉ l) ->
                  (forall k' v', (k', v') ∈ l -> k' ∈ metaToPass -> v' <> EmptyString ->
                     Textproto.CanonicalMIMEHeaderKey (prefix +:+ k') = name -> k' = k) ->
                  passthroughValues metaToPass l name = []).
  { intros l Hfree Hl.
    destruct (passthroughValues metaToPass l name) as [|v' vs] eqn:Hvs; [reflexivity|].
    assert (Hv' : v' ∈ passthroughValues metaToPass l name) by (rewrite Hvs; left).
    apply passthroughValues_elem in Hv' as (k' & Hin' & Hp' & Hne' & Hn').
    assert (k' = k) by eauto. subst k'. now apply Hfree in Hin'. }
  induction entries as [|[k0 v0] entries IH]; [inversion Hin|].
  simpl in Hnd. apply NoDup_cons in Hnd as [Hfresh Hnd].
  rewrite passthroughValues_cons.
  apply elem_of_cons in Hin as [Heq|Hin].
  - inversion Heq; subst k0 v0.
    rewrite (Hnone entries).
    + unfold passthroughValues. rewrite filter_cons, filter_nil.
      rewrite decide_True by (simpl; tauto). reflexivity.
    + intros v' Hin'. apply Hfresh. apply list_elem_of_fmap. now exists (k, v').
    + intros k' v' Hin'. apply Honly. now right.
  - assert (Hk0 : k0 <> k).
    { intros ->. apply Hfresh. apply list_elem_of_fmap. now exists (k, v). }
    rewrite IH; try assumption.
    + unfold passthroughValues. rewrite filter_cons, filter_nil.
      rewrite decide_False; [reflexivity|]. simpl. intros (Hn0 & Hp0 & Hne0).
      apply Hk0. apply (Honly k0 v0); [left | assumption..].
    + intros k' v' Hin'. apply Honly. now right.
Qed.

End Passthrough.

(** ** The paths through [proxy] *)

Lemma finish_handleError w e :
  Http.sent w = None ->
  Http.finish (handleError w (Some e))
  = {| Http.Status := errorStatus e;
       Http.Headers :=
         Http.Header_Set
           (Http.Header_Set (Http.hdr w) "Content-Type" "text/plain; charset=utf-8")
           "X-Content-Type-Options" "nosniff";
       Http.Body := Http.written w +:+ (Error e +:+ newline) |}.
Proof. intros Hs. destruct e; simpl; now rewrite finish_Error. Qed.

Section Pipeline.

Variable flags : Flags.
Variable client : Storage.Client.
Variable parseHTTPDate : string -> result Time.t.
Variable formatHTTPDate : Time.t -> string.

Lemma writeMetadataHeaders_sent attr w :
  Http.sent (writeMetadataHeaders flags attr w) = Http.sent w.
Proof. apply range_sent. Qed.

Lemma writeMetadataHeaders_written attr w :
  Http.written (writeMetadataHeaders flags attr w) = Http.written w.
Proof. apply range_written. Qed.

Lemma writeMetadataHeaders_lookup attr w name :
  Http.hdr (writeMetadataHeaders flags attr w) !! name
  = extend (Http.hdr w !! name) (metaValues flags attr name).
Proof. apply range_lookup. Qed.

Lemma carries_extend (vs : list string) : carries (extend None vs) vs.
Proof. destruct vs; simpl; [reflexivity | split; [discriminate | reflexivity]]. Qed.

Lemma carries_perm header (vs1 vs2 : list string) :
  vs1 ≡ₚ vs2 -> carries header vs1 -> carries header vs2.
Proof.
  intros Hperm. destruct header as [vs|]; simpl.
  - intros [Hne Hvs]. split; [assumption | now rewrite Hvs].
  - intros ->. now apply Permutation_nil_l in Hperm.
Qed.

(** In whatever order the loop visits the metadata of an object, a fresh
    writer ends up carrying, under every header name, the values of the
    object for that name. *)
Lemma writeMetadataHeaders_range_carries attr entries name :
  entries ≡ₚ map_to_list (Storage.Metadata attr) ->
  carries (Http.hdr (writeMetadataHeaders_range flags entries Http.newResponseWriter) !! name)
          (metaValues flags attr name).
Proof.
  clear client parseHTTPDate formatHTTPDate.
  intros Hperm. unfold writeMetadataHeaders_range. rewrite range_lookup.
  apply (carries_perm _ (passthroughValues (parsePassthroughMeta flags) entries name)).
  - now apply passthroughValues_perm.
  - apply carries_extend.
Qed.

(** The values written under a header name are the values of the metadata
    keys that are whitelisted, not empty and have that name as the canonical
    form of the prefixed key. *)
Lemma metaValues_elem attr name v :
  v ∈ metaValues flags attr name <->
  exists k, Storage.Metadata attr !! k = Some v /\ k ∈ parsePassthroughMeta flags /\
            v <> EmptyString /\ Textproto.CanonicalMIMEHeaderKey (prefix +:+ k) = name.
Proof.
  clear client parseHTTPDate formatHTTPDate.
  unfold metaValues. rewrite passthroughValues_elem.
  split; intros (k & Hk & Hrest); exists k; (split; [|exact Hrest]).
  - now apply elem_of_map_to_list in Hk.
  - now apply elem_of_map_to_list.
Qed.

(** A key that is alone under its header name gives the header its value
    alone. *)
Lemma metaValues_single attr k v :
  Storage.Metadata attr !! k = Some v -> k ∈ parsePassthroughMeta flags -> v <> EmptyString ->
  (forall k' v', Storage.Metadata attr !! k' = Some v' -> k' ∈ parsePassthroughMeta flags ->
                 v' <> EmptyString ->
                 Textproto.CanonicalMIMEHeaderKey (prefix +:+ k')
                 = Textproto.CanonicalMIMEHeaderKey (prefix +:+ k) -> k' = k) ->
  metaValues flags attr (Textproto.CanonicalMIMEHeaderKey (prefix +:+ k)) = [v].
Proof.
  clear client parseHTTPDate formatHTTPDate.
  intros Hk Hpass Hne Honly. unfold metaValues.
  apply (passthroughValues_single _ _ _ k v); try assumption; try reflexivity.
  - apply NoDup_fst_map_to_list.
  - now apply elem_of_map_to_list.
  - intros k' v' Hin. apply Honly. now apply elem_of_map_to_list in Hin.
Qed.

Local Abbreviation resp := (respond flags client parseHTTPDate formatHTTPDate).
Local Abbreviation notModified := (notModified flags parseHTTPDate).

(** The writer after the loop over the metadata, for a fresh response. *)
Local Abbreviation afterMeta attr := (writeMetadataHeaders flags attr Http.newResponseWriter).

Lemma contentHeaders_sent attr objr w :
  Http.sent (contentHeaders formatHTTPDate attr objr w) = Http.sent w.
Proof.
  unfold contentHeaders.
  now rewrite setIntHeader_sent, !setStrHeader_sent, setTimeHeader_sent.
Qed.

Lemma contentHeaders_written attr objr w :
  Http.written (contentHeaders formatHTTPDate attr objr w) = Http.written w.
Proof.
  unfold contentHeaders.
  now rewrite setIntHeader_written, !setStrHeader_written, setTimeHeader_written.
Qed.

Lemma ifModifiedSince_returned attr r w :
  (ifModifiedSince flags parseHTTPDate attr r w).2 = notModified attr r.
Proof.
  unfold notModified, ifModifiedSince.
  destruct (Http.Header_ r !! "If-Modified-Since") as [[|lastStr rest]|]; try reflexivity.
  destruct (Http.ParseTime parseHTTPDate lastStr) as [last err].
  destruct (negb _); reflexivity.
Qed.

Lemma ifModifiedSince_writer attr r w :
  (ifModifiedSince flags parseHTTPDate attr r w).1.1
  = if notModified attr r then Http.WriteHeader w 304 else w.
Proof.
  unfold notModified, ifModifiedSince.
  destruct (Http.Header_ r !! "If-Modified-Since") as [[|lastStr rest]|]; try reflexivity.
  destruct (Http.ParseTime parseHTTPDate lastStr) as [last err].
  destruct (negb _); reflexivity.
Qed.

(** [isBlocked] fails exactly when [parseBlockIfMeta] does, and then with
    its error. *)
Lemma isBlocked_error attr b e :
  isBlocked flags attr = (b, Some e) -> (parseBlockIfMeta flags).2 = Some e.
Proof.
  unfold isBlocked. destruct (parseBlockIfMeta flags) as [[key value] [err|]]; simpl.
  - now intros [= _ ->].
  - discriminate.
Qed.

(** *** The six ways a request ends *)

Lemma resp_attrs_error r e :
  Storage.ObjectAttrsOf client (objectOf r) = Err e ->
  resp r = Http.finish (handleError Http.newResponseWriter (Some e)).
Proof. intros Ha. unfold respond, proxy. now rewrite Ha. Qed.

Lemma resp_rule_error r attr b e :
  Storage.ObjectAttrsOf client (objectOf r) = Ok attr ->
  isBlocked flags attr = (b, Some e) ->
  resp r = Http.finish (handleError Http.newResponseWriter (Some e)).
Proof. intros Ha Hb. unfold respond, proxy. rewrite Ha, Hb. now destruct b. Qed.

Lemma resp_blocked r attr :
  Storage.ObjectAttrsOf client (objectOf r) = Ok attr ->
  isBlocked flags attr = (true, None) ->
  resp r = {| Http.Status := 404; Http.Headers := ∅; Http.Body := EmptyString |}.
Proof. intros Ha Hb. unfold respond, proxy. now rewrite Ha, Hb. Qed.

Lemma resp_unblocked r attr :
  Storage.ObjectAttrsOf client (objectOf r) = Ok attr ->
  isBlocked flags attr = (false, None) ->
  resp r = Http.finish
             (if notModified attr r
              then Http.WriteHeader (afterMeta attr) 304
              else serveContent client formatHTTPDate (objectOf r) attr (afterMeta attr)).
Proof.
  intros Ha Hb. unfold respond, proxy. rewrite Ha, Hb.
  pose proof (ifModifiedSince_returned attr r (afterMeta attr)) as Hr.
  pose proof (ifModifiedSince_writer attr r (afterMeta attr)) as Hw.
  destruct (ifModifiedSince flags parseHTTPDate attr r (afterMeta attr)) as [[w log] returned].
  simpl in Hr, Hw. subst returned w.
  now destruct (notModified attr r).
Qed.

Lemma resp_not_modified r attr :
  Storage.ObjectAttrsOf client (objectOf r) = Ok attr ->
  isBlocked flags attr = (false, None) ->
  notModified attr r = true ->
  resp r = {| Http.Status := 304; Http.Headers := Http.hdr (afterMeta attr);
              Http.Body := EmptyString |}.
Proof.
  intros Ha Hb Hn. rewrite (resp_unblocked r attr Ha Hb), Hn.
  rewrite finish_WriteHeader
    by first [now rewrite writeMetadataHeaders_sent | reflexivity].
  now rewrite writeMetadataHeaders_written.
Qed.

Lemma resp_reader_error r attr e :
  Storage.ObjectAttrsOf client (objectOf r) = Ok attr ->
  isBlocked flags attr = (false, None) ->
  notModified attr r = false ->
  Storage.NewReader client (objectOf r) = Err e ->
  resp r = Http.finish (handleError (afterMeta attr) (Some e)).
Proof.
  intros Ha Hb Hn Hr. rewrite (resp_unblocked r attr Ha Hb), Hn.
  unfold serveContent. now rewrite Hr.
Qed.

Lemma resp_served r attr objr :
  Storage.ObjectAttrsOf client (objectOf r) = Ok attr ->
  isBlocked flags attr = (false, None) ->
  notModified attr r = false ->
  Storage.NewReader client (objectOf r) = Ok objr ->
  resp r = {| Http.Status := 200;
              Http.Headers := Http.hdr (contentHeaders formatHTTPDate attr objr (afterMeta attr));
              Http.Body := Storage.content objr |}.
Proof.
  intros Ha Hb Hn Hr. rewrite (resp_unblocked r attr Ha Hb), Hn.
  unfold serveContent. rewrite Hr.
  rewrite finish_io_Copy
    by now rewrite contentHeaders_sent, writeMetadataHeaders_sent.
  now rewrite contentHeaders_written, writeMetadataHeaders_written.
Qed.

(** A response with status 200 is one whose content was served. *)
Lemma resp_200_inv r attr :
  Storage.ObjectAttrsOf client (objectOf r) = Ok attr ->
  Http.Status (resp r) = 200 ->
  isBlocked flags attr = (false, None) /\ notModified attr r = false /\
  exists objr, Storage.NewReader client (objectOf r) = Ok objr.
Proof.
  intros Ha Hs.
  destruct (isBlocked flags attr) as [b [e|]] eqn:Hb.
  - rewrite (resp_rule_error r attr b e Ha Hb) in Hs.
    rewrite finish_handleError in Hs by reflexivity. destruct e; discriminate.
  - destruct b.
    + rewrite (resp_blocked r attr Ha Hb) in Hs. discriminate.
    + destruct (notModified attr r) eqn:Hn.
      * rewrite (resp_not_modified r attr Ha Hb Hn) in Hs. discriminate.
      * destruct (Storage.NewReader client (objectOf r)) as [objr|e] eqn:Hr.
        -- repeat split; eauto.
        -- rewrite (resp_reader_error r attr e Ha Hb Hn Hr) in Hs.
           rewrite finish_handleError in Hs by now rewrite writeMetadataHeaders_sent.
           destruct e; discriminate.
Qed.

(** *** The conditional-GET decision *)

Lemma notModified_parsed attr r lastStr rest last :
  Http.Header_ r !! "If-Modified-Since" = Some (lastStr :: rest) ->
  parseHTTPDate lastStr = Ok last ->
  notModified attr r
  = negb (Time.After (Time.Truncate (Storage.Updated attr) Time.Second) last).
Proof.
  intros Hh Hp. unfold notModified, ifModifiedSince, Http.ParseTime. rewrite Hh, Hp.
  now destruct (negb _).
Qed.

Lemma notModified_unparsed attr r lastStr rest e :
  Http.Header_ r !! "If-Modified-Since" = Some (lastStr :: rest) ->
  parseHTTPDate lastStr = Err e ->
  notModified attr r
  = negb (Time.After (Time.Truncate (Storage.Updated attr) Time.Second) Time.zero).
Proof.
  intros Hh Hp. unfold notModified, ifModifiedSince, Http.ParseTime. rewrite Hh, Hp.
  now destruct (negb _).
Qed.

Lemma notModified_absent attr r :
  Http.Header_ r !! "If-Modified-Since" = None ->
  notModified attr r = false.
Proof. intros Hh. unfold notModified, ifModifiedSince. now rewrite Hh. Qed.

(** *** The headers of a served response *)

Lemma prefix_not_attribute k name : name ∈ attributeHeaders -> name <> prefix +:+ k.
Proof.
  intros Hin Heq. subst name. unfold attributeHeaders in Hin.
  repeat (apply elem_of_cons in Hin as [Hin|Hin]; [vm_compute in Hin; discriminate|]).
  inversion Hin.
Qed.

(** No metadata key is written under the name of a header derived from the
    attributes. *)
Lemma metaValues_attribute attr name :
  name ∈ attributeHeaders -> metaValues flags attr name = [].
Proof.
  clear client parseHTTPDate formatHTTPDate.
  intros Hin. destruct (metaValues flags attr name) as [|v vs] eqn:Hvs; [reflexivity|].
  assert (Hv : v ∈ metaValues flags attr name) by (rewrite Hvs; left).
  apply metaValues_elem in Hv as (k & _ & _ & _ & Hname).
  rewrite canonical_prefix in Hname. symmetry in Hname.
  now apply prefix_not_attribute in Hname.
Qed.

Lemma contentHeaders_other attr objr w name :
  name ∉ attributeHeaders ->
  Http.hdr (contentHeaders formatHTTPDate attr objr w) !! name = Http.hdr w !! name.
Proof.
  intros Hn. unfold attributeHeaders in Hn.
  repeat (apply not_elem_of_cons in Hn as [? Hn]).
  unfold contentHeaders.
  rewrite setIntHeader_lookup, !setStrHeader_lookup,
    (setTimeHeader_lookup formatHTTPDate).
  repeat (case_decide as Hd;
          [destruct Hd as [Hd _]; vm_compute in Hd; congruence | clear Hd]).
  reflexivity.
Qed.

Lemma afterMeta_attribute attr name :
  name ∈ attributeHeaders -> Http.hdr (afterMeta attr) !! name = None.
Proof.
  intros Hin. rewrite writeMetadataHeaders_lookup.
  now rewrite metaValues_attribute.
Qed.

Lemma setStrHeader_lookup_ne w key value name :
  Textproto.CanonicalMIMEHeaderKey key <> name ->
  Http.hdr (setStrHeader w key value) !! name = Http.hdr w !! name.
Proof. intros Hne. rewrite setStrHeader_lookup. case_decide; [tauto | reflexivity]. Qed.

Lemma setIntHeader_lookup_ne w key value name :
  Textproto.CanonicalMIMEHeaderKey key <> name ->
  Http.hdr (setIntHeader w key value) !! name = Http.hdr w !! name.
Proof. intros Hne. rewrite setIntHeader_lookup. case_decide; [tauto | reflexivity]. Qed.

Lemma setTimeHeader_lookup_ne w key value name :
  Textproto.CanonicalMIMEHeaderKey key <> name ->
  Http.hdr (setTimeHeader formatHTTPDate w key value) !! name = Http.hdr w !! name.
Proof. intros Hne. rewrite setTimeHeader_lookup. case_decide; [tauto | reflexivity]. Qed.

Lemma setStrHeader_lookup_eq w key value name :
  Textproto.CanonicalMIMEHeaderKey key = name ->
  Http.hdr w !! name = None ->
  Http.hdr (setStrHeader w key value) !! name = strHeader value.
Proof.
  intros Hname Hw. rewrite setStrHeader_lookup, Hw. unfold strHeader.
  repeat case_decide; try reflexivity; tauto.
Qed.

Lemma setIntHeader_lookup_eq w key value name :
  Textproto.CanonicalMIMEHeaderKey key = name ->
  Http.hdr w !! name = None ->
  Http.hdr (setIntHeader w key value) !! name
  = if 0 <? value then Some [FormatInt value] else None.
Proof.
  intros Hname Hw. rewrite setIntHeader_lookup, Hw.
  destruct (Z.ltb_spec 0 value); case_decide; try reflexivity; try tauto; lia.
Qed.

Lemma contentHeaders_attribute attr objr w :
  (forall name, name ∈ attributeHeaders -> Http.hdr w !! name = None) ->
  let h := Http.hdr (contentHeaders formatHTTPDate attr objr w) in
  h !! "Content-Type" = strHeader (Storage.ContentType attr) /\
  h !! "Content-Language" = strHeader (Storage.ContentLanguage attr) /\
  h !! "Cache-Control" = strHeader (Storage.CacheControl attr) /\
  h !! "Content-Disposition" = strHeader (Storage.ContentDisposition attr) /\
  h !! "Content-Encoding" = strHeader (Storage.ContentEncoding (Storage.Attrs objr)) /\
  h !! "Content-Length"
  = (if 0 <? Storage.Size (Storage.Attrs objr)
     then Some [FormatInt (Storage.Size (Storage.Attrs objr))] else None).
Proof.
  intros Hw h. subst h. unfold contentHeaders.
  assert (Hskip : forall name, name ∈ attributeHeaders -> Http.hdr w !! name = None)
    by exact Hw.
  unfold attributeHeaders in Hskip.
  repeat split;
    rewrite ?setIntHeader_lookup_ne, ?setStrHeader_lookup_ne by canon_ne;
    (apply setStrHeader_lookup_eq || apply setIntHeader_lookup_eq); try reflexivity;
    rewrite ?setStrHeader_lookup_ne, ?setTimeHeader_lookup_ne by canon_ne;
    apply Hskip; set_solver.
Qed.

(** ** The properties of the specification *)

(** C1, as the code has it: when the object was fetched and is not blocked,
    the [If-Modified-Since] header parses and the object's update time,
    truncated to whole seconds, is not after the parsed time, the response is
    304 with an empty body.  It carries none of the headers derived from the
    attributes; but [writeMetadataHeaders] runs before the conditional check,
    so the passthrough headers are sent with the 304: under every header
    name, the values of the metadata keys that are whitelisted, have a
    non-empty value and have that name as the canonical form of the prefixed
    key, in some order, and nothing else.  A key that is alone under its
    header name gives a header with its value alone. *)
Theorem not_modified_response r attr lastStr rest last :
  Storage.ObjectAttrsOf client (objectOf r) = Ok attr ->
  isBlocked flags attr = (false, None) ->
  Http.Header_ r !! "If-Modified-Since" = Some (lastStr :: rest) ->
  parseHTTPDate lastStr = Ok last ->
  Time.After (Time.Truncate (Storage.Updated attr) Time.Second) last = false ->
  Http.Status (resp r) = 304 /\
  Http.Body (resp r) = EmptyString /\
  (forall name, name ∈ attributeHeaders -> Http.Headers (resp r) !! name = None) /\
  (forall name, carries (Http.Headers (resp r) !! name) (metaValues flags attr name)) /\
  (forall name v,
     v ∈ metaValues flags attr name <->
     exists k, Storage.Metadata attr !! k = Some v /\ k ∈ parsePassthroughMeta flags /\
               v <> EmptyString /\ Textproto.CanonicalMIMEHeaderKey (prefix +:+ k) = name) /\
  (forall k v,
     Storage.Metadata attr !! k = Some v -> k ∈ parsePassthroughMeta flags ->
     v <> EmptyString ->
     (forall k' v', Storage.Metadata attr !! k' = Some v' ->
                    k' ∈ parsePassthroughMeta flags -> v' <> EmptyString ->
                    Textproto.CanonicalMIMEHeaderKey (prefix +:+ k')
                    = Textproto.CanonicalMIMEHeaderKey (prefix +:+ k) -> k' = k) ->
     Http.Headers (resp r) !! Textproto.CanonicalMIMEHeaderKey (prefix +:+ k) = Some [v]).
Proof.
  intros Ha Hb Hh Hp Hafter.
  assert (Hn : notModified attr r = true)
    by (rewrite (notModified_parsed attr r lastStr rest last Hh Hp), Hafter; reflexivity).
  rewrite (resp_not_modified r attr Ha Hb Hn). simpl.
  split; [reflexivity|]. split; [reflexivity|]. split; [|split; [|split]].
  - intros name Hin. now apply afterMeta_attribute.
  - intros name. rewrite writeMetadataHeaders_lookup. apply carries_extend.
  - intros name v. apply metaValues_elem.
  - intros k v Hk Hpass Hne Honly. rewrite writeMetadataHeaders_lookup.
    now rewrite (metaValues_single attr k v Hk Hpass Hne Honly).
Qed.

(** The response to a request that reaches the block rule while the rule
    does not split into two parts: status 500, and a body made of the fixed
    text, the address of the flag variable and a line end. *)
Lemma resp_malformed_rule r attr :
  Storage.ObjectAttrsOf client (objectOf r) = Ok attr ->
  length (Strings.Split (deref (blockIfMeta flags)) ":") <> 2%nat ->
  Http.Status (resp r) = 500 /\
  Http.Body (resp r)
  = "unexpected block-if argument: " +:+ Fmt.pointer (addr (blockIfMeta flags)) +:+ newline.
Proof.
  intros Ha Hlen.
  assert (Hb : isBlocked flags attr
               = (false, Some (errorString ("unexpected block-if argument: "
                                            +:+ Fmt.pointer (addr (blockIfMeta flags)))))).
  { unfold isBlocked, parseBlockIfMeta.
    destruct (Strings.Split (deref (blockIfMeta flags)) ":") as [|a [|b [|c l]]];
      try reflexivity.
    now contradiction Hlen. }
  rewrite (resp_rule_error r attr _ _ Ha Hb).
  rewrite finish_handleError by reflexivity. split; reflexivity.
Qed.

(** C3: when the rule splits into [key] and [value] and the metadata of the
    fetched object maps [key] to exactly [value], the response is 404 with
    no header and an empty body, whatever opening the object for reading
    would give; and when the metadata has no [key], a rule with a non-empty
    value does not block the object. *)
Theorem blocked_object_not_found r attr key value :
  Storage.ObjectAttrsOf client (objectOf r) = Ok attr ->
  Strings.Split (deref (blockIfMeta flags)) ":" = [key; value] ->
  (Storage.Metadata attr !! key = Some value ->
   resp r = {| Http.Status := 404; Http.Headers := ∅; Http.Body := EmptyString |}) /\
  (Storage.Metadata attr !! key = None -> value <> EmptyString ->
   isBlocked flags attr = (false, None)).
Proof.
  intros Ha Hsplit.
  assert (Hb : isBlocked flags attr
               = (bool_decide (default EmptyString (Storage.Metadata attr !! key) = value),
                  None))
    by (unfold isBlocked, parseBlockIfMeta; now rewrite Hsplit).
  split.
  - intros Hk. apply (resp_blocked r attr Ha).
    rewrite Hb, Hk. simpl. now rewrite bool_decide_eq_true_2.
  - intros Hk Hv. rewrite Hb, Hk. simpl.
    rewrite bool_decide_eq_false_2; [reflexivity | congruence].
Qed.

(** When the [If-Modified-Since] header does not parse and the update time,
    truncated to whole seconds, is after the zero time, the response is the
    one to the same request without the header. *)
Lemma resp_unparsed_date r attr lastStr rest e :
  Storage.ObjectAttrsOf client (objectOf r) = Ok attr ->
  Http.Header_ r !! "If-Modified-Since" = Some (lastStr :: rest) ->
  parseHTTPDate lastStr = Err e ->
  Time.After (Time.Truncate (Storage.Updated attr) Time.Second) Time.zero = true ->
  resp r = resp (withoutIfModifiedSince r).
Proof.
  intros Ha Hh Hp Hafter.
  assert (Hobj : objectOf (withoutIfModifiedSince r) = objectOf r).
  { unfold objectOf, clientAcceptsGzip, Http.Header_Get, withoutIfModifiedSince. simpl.
    now rewrite lookup_delete_ne by discriminate. }
  assert (Hn : notModified attr r = false)
    by (rewrite (notModified_unparsed attr r lastStr rest e Hh Hp), Hafter; reflexivity).
  assert (Hn' : notModified attr (withoutIfModifiedSince r) = false)
    by (apply notModified_absent; simpl; apply lookup_delete_eq).
  unfold respond, proxy. rewrite Hobj, Ha.
  destruct (isBlocked flags attr) as [[|] [err|]]; try reflexivity.
  pose proof (ifModifiedSince_returned attr r (afterMeta attr)) as Hr.
  pose proof (ifModifiedSince_writer attr r (afterMeta attr)) as Hw.
  pose proof (ifModifiedSince_returned attr (withoutIfModifiedSince r) (afterMeta attr)) as Hr'.
  pose proof (ifModifiedSince_writer attr (withoutIfModifiedSince r) (afterMeta attr)) as Hw'.
  destruct (ifModifiedSince flags parseHTTPDate attr r (afterMeta attr)) as [[w log] ret].
  destruct (ifModifiedSince flags parseHTTPDate attr (withoutIfModifiedSince r) (afterMeta attr))
    as [[w' log'] ret'].
  simpl in *. rewrite Hn in *. rewrite Hn' in *. subst. reflexivity.
Qed.

(** C5: when the object was fetched and is not blocked and the
    [If-Modified-Since] header parses, the response is 304 with an empty body
    if the update time truncated to whole seconds is at or before the parsed
    time, and otherwise, the truncated update time being strictly after the
    parsed time, 200 with the whole content of the opened object. *)
Theorem conditional_get_decision r attr lastStr rest last :
  Storage.ObjectAttrsOf client (objectOf r) = Ok attr ->
  isBlocked flags attr = (false, None) ->
  Http.Header_ r !! "If-Modified-Since" = Some (lastStr :: rest) ->
  parseHTTPDate lastStr = Ok last ->
  (Time.Truncate (Storage.Updated attr) Time.Second <= last ->
   Http.Status (resp r) = 304 /\ Http.Body (resp r) = EmptyString) /\
  (last < Time.Truncate (Storage.Updated attr) Time.Second ->
   forall objr, Storage.NewReader client (objectOf r) = Ok objr ->
   Http.Status (resp r) = 200 /\ Http.Body (resp r) = Storage.content objr).
Proof.
  intros Ha Hb Hh Hp.
  pose proof (notModified_parsed attr r lastStr rest last Hh Hp) as Hn.
  unfold Time.After in Hn. split.
  - intros Hle.
    rewrite (proj2 (Z.ltb_ge _ _) Hle) in Hn.
    now rewrite (resp_not_modified r attr Ha Hb Hn).
  - intros Hlt objr Hr.
    rewrite (proj2 (Z.ltb_lt _ _) Hlt) in Hn.
    now rewrite (resp_served r attr objr Ha Hb Hn Hr).
Qed.

(** C6: an error of the attribute fetch, and an error of opening the object
    for reading, give status 404 when the error is the object-does-not-exist
    error and status 500 otherwise, and in both cases the body is the text of
    the error, ended by the line end [http.Error] writes. *)
Theorem backend_error_response r :
  (forall e, Storage.ObjectAttrsOf client (objectOf r) = Err e ->
     (e = ErrObjectNotExist -> Http.Status (resp r) = 404) /\
     (e <> ErrObjectNotExist -> Http.Status (resp r) = 500) /\
     Http.Body (resp r) = Error e +:+ newline) /\
  (forall attr e, Storage.ObjectAttrsOf client (objectOf r) = Ok attr ->
     isBlocked flags attr = (false, None) ->
     notModified attr r = false ->
     Storage.NewReader client (objectOf r) = Err e ->
     (e = ErrObjectNotExist -> Http.Status (resp r) = 404) /\
     (e <> ErrObjectNotExist -> Http.Status (resp r) = 500) /\
     Http.Body (resp r) = Error e +:+ newline).
Proof.
  split.
  - intros e Ha. rewrite (resp_attrs_error r e Ha).
    rewrite finish_handleError by reflexivity. simpl.
    repeat split; destruct e; intros; try reflexivity; congruence.
  - intros attr e Ha Hb Hn Hr. rewrite (resp_reader_error r attr e Ha Hb Hn Hr).
    rewrite finish_handleError by now rewrite writeMetadataHeaders_sent.
    simpl. rewrite writeMetadataHeaders_written.
    repeat split; destruct e; intros; try reflexivity; congruence.
Qed.

(** C7, as the code has it: on every 200 response, each header other than
    the seven derived from the attributes holds the values of the metadata
    keys that are members of the passthrough set, have a non-empty value and
    have the name of the header as the canonical form of the prefix followed
    by the key, in some order, and is absent when there is no such key; so a
    key outside the passthrough set, or with an empty value, is never
    exposed.  Keys that differ in letter case only share one header.  A key
    that is alone under its header name gives one header with the metadata
    value as its only value. *)
Theorem passthrough_headers_of_served r attr :
  Storage.ObjectAttrsOf client (objectOf r) = Ok attr ->
  Http.Status (resp r) = 200 ->
  (forall name, name ∉ attributeHeaders ->
     carries (Http.Headers (resp r) !! name) (metaValues flags attr name)) /\
  (forall name v,
     v ∈ metaValues flags attr name <->
     exists k, Storage.Metadata attr !! k = Some v /\ k ∈ parsePassthroughMeta flags /\
               v <> EmptyString /\ Textproto.CanonicalMIMEHeaderKey (prefix +:+ k) = name) /\
  (forall k v,
     Storage.Metadata attr !! k = Some v -> k ∈ parsePassthroughMeta flags ->
     v <> EmptyString ->
     (forall k' v', Storage.Metadata attr !! k' = Some v' ->
                    k' ∈ parsePassthroughMeta flags -> v' <> EmptyString ->
                    Textproto.CanonicalMIMEHeaderKey (prefix +:+ k')
                    = Textproto.CanonicalMIMEHeaderKey (prefix +:+ k) -> k' = k) ->
     Http.Headers (resp r) !! Textproto.CanonicalMIMEHeaderKey (prefix +:+ k) = Some [v]).
Proof.
  intros Ha Hs.
  destruct (resp_200_inv r attr Ha Hs) as (Hb & Hn & objr & Hr).
  rewrite (resp_served r attr objr Ha Hb Hn Hr). simpl. split; [|split].
  - intros name Hname. rewrite contentHeaders_other by assumption.
    rewrite writeMetadataHeaders_lookup. apply carries_extend.
  - intros name v. apply metaValues_elem.
  - intros k v Hk Hpass Hne Honly. rewrite contentHeaders_other.
    + rewrite writeMetadataHeaders_lookup.
      now rewrite (metaValues_single attr k v Hk Hpass Hne Honly).
    + rewrite canonical_prefix. intros Hin.
      exact (prefix_not_attribute _ _ Hin eq_refl).
Qed.

(** C8: on every response for which the header translation runs, that is on
    every 200 response, each of [Content-Type], [Content-Language],
    [Cache-Control], [Content-Disposition] and [Content-Encoding] is set,
    to its source value, if and only if that value is not empty, and
    [Content-Length] is set, to the size in decimal, if and only if the size
    is strictly positive; the sources of [Content-Encoding] and
    [Content-Length] are the attributes of the opened reader, those of the
    other four the attributes of the object. *)
Theorem content_headers_of_served r attr objr :
  Storage.ObjectAttrsOf client (objectOf r) = Ok attr ->
  Storage.NewReader client (objectOf r) = Ok objr ->
  Http.Status (resp r) = 200 ->
  let h := Http.Headers (resp r) in
  h !! "Content-Type" = strHeader (Storage.ContentType attr) /\
  h !! "Content-Language" = strHeader (Storage.ContentLanguage attr) /\
  h !! "Cache-Control" = strHeader (Storage.CacheControl attr) /\
  h !! "Content-Disposition" = strHeader (Storage.ContentDisposition attr) /\
  h !! "Content-Encoding" = strHeader (Storage.ContentEncoding (Storage.Attrs objr)) /\
  h !! "Content-Length"
  = (if 0 <? Storage.Size (Storage.Attrs objr)
     then Some [FormatInt (Storage.Size (Storage.Attrs objr))] else None).
Proof.
  intros Ha Hr Hs.
  destruct (resp_200_inv r attr Ha Hs) as (Hb & Hn & _).
  rewrite (resp_served r attr objr Ha Hb Hn Hr). simpl.
  apply contentHeaders_attribute. apply afterMeta_attribute.
Qed.

(** C9: with the empty passthrough flag, [parsePassthroughMeta] gives the
    set whose only member is the empty string; a metadata key that is the
    empty string is then whitelisted, and its non-empty value is written
    under the bare prefix. *)
Theorem empty_passthrough_flag :
  deref (passthroughMeta flags) = EmptyString ->
  parsePassthroughMeta flags = {[ EmptyString ]} /\
  (forall attr v,
     Storage.Metadata attr !! EmptyString = Some v -> v <> EmptyString ->
     Http.hdr (writeMetadataHeaders flags attr Http.newResponseWriter) !! prefix = Some [v]).
Proof.
  clear client parseHTTPDate formatHTTPDate.
  intros Hflag.
  assert (Hset : parsePassthroughMeta flags = {[ EmptyString ]}).
  { unfold parsePassthroughMeta. rewrite Hflag. simpl. apply (right_id_L ∅ (∪)). }
  split; [exact Hset|].
  intros attr v Hk Hv.
  change prefix with (Textproto.CanonicalMIMEHeaderKey (prefix +:+ EmptyString)).
  rewrite writeMetadataHeaders_lookup.
  rewrite (metaValues_single attr EmptyString v); try assumption; [reflexivity | |].
  - rewrite Hset. set_solver.
  - intros k' v' _ Hin _ _. rewrite Hset in Hin. set_solver.
Qed.

(** C10: with the empty block-rule flag, [parseBlockIfMeta] fails, the split
    of the empty string having one part, and every request whose object was
    fetched ends with status 500, whatever the object and its content. *)
Theorem empty_block_rule r attr :
  deref (blockIfMeta flags) = EmptyString ->
  Storage.ObjectAttrsOf client (objectOf r) = Ok attr ->
  Strings.Split (deref (blockIfMeta flags)) ":" = [EmptyString] /\
  (exists e, (parseBlockIfMeta flags).2 = Some e) /\
  Http.Status (resp r) = 500.
Proof.
  intros Hflag Ha. split; [now rewrite Hflag|]. split.
  - unfold parseBlockIfMeta. rewrite Hflag. simpl. eauto.
  - apply (resp_malformed_rule r attr Ha). now rewrite Hflag.
Qed.

End Pipeline.

(** Without [-v] the handler logs nothing. *)
Lemma proxy_quiet flags client parseHTTPDate formatHTTPDate w r :
  deref (verbose flags) = false ->
  (proxy flags client parseHTTPDate formatHTTPDate w r).2 = [].
Proof.
  intros Hv. unfold proxy.
  destruct (Storage.ObjectAttrsOf client (objectOf r)) as [attr|e]; [|reflexivity].
  destruct (isBlocked flags attr) as [[|] [err|]]; try reflexivity.
  - simpl. now rewrite Hv.
  - unfold ifModifiedSince.
    destruct (Http.Header_ r !! "If-Modified-Since") as [[|lastStr rest]|]; try reflexivity.
    destruct (Http.ParseTime parseHTTPDate lastStr) as [last [e|]]; rewrite ?Hv;
      now destruct (negb _).
Qed.

(** ** The properties on the sample data *)

(** C2, evaluated: under the flag [-block-if Blocked=true], which has no
    colon, the request for an existing object ends with status 500, but the
    body names the address of the flag variable, [0xc00001a060], and does not
    contain the value [Blocked=true] of the flag: [parseBlockIfMeta] formats
    the pointer [blockIfMeta] where the string [*blockIfMeta] was meant. *)
Theorem malformed_rule_message :
  length (Strings.Split "Blocked=true" ":") = 1%nat /\
  Http.Status (Sample.response "Blocked=true" "Owner" Sample.metadata Sample.instant ∅) = 500 /\
  Http.Body (Sample.response "Blocked=true" "Owner" Sample.metadata Sample.instant ∅)
  = "unexpected block-if argument: 0xc00001a060" +:+ newline /\
  Strings.Contains
    (Http.Body (Sample.response "Blocked=true" "Owner" Sample.metadata Sample.instant ∅))
    "Blocked=true" = false.
Proof. vm_compute. repeat split. Qed.

(** C4, evaluated: for an object whose update time is the zero time, a
    request with the unparsable header [If-Modified-Since: yesterday] is
    answered 304 with an empty body, while the same request without the
    header is answered 200 with the content: the error of [http.ParseTime]
    is only logged, and the comparison is made with the zero time it
    returns. *)
Theorem unparsed_date_not_ignored :
  Sample.parseHTTPDate "yesterday" = Err (errorString "parsing time: yesterday") /\
  Http.Status (Sample.response "Blocked:true" "Owner" Sample.metadata Time.zero
                 (Sample.ifModifiedSinceHeader "yesterday")) = 304 /\
  Http.Body (Sample.response "Blocked:true" "Owner" Sample.metadata Time.zero
               (Sample.ifModifiedSinceHeader "yesterday")) = EmptyString /\
  Http.Status (Sample.response "Blocked:true" "Owner" Sample.metadata Time.zero ∅) = 200 /\
  Http.Body (Sample.response "Blocked:true" "Owner" Sample.metadata Time.zero ∅) = "hello".
Proof. vm_compute. repeat split. Qed.

(** Against C1 as stated: the header parses, the update time is not after
    the parsed time and the response is 304, yet it carries the passthrough
    header of the metadata key [Owner]. *)
Lemma not_modified_response_has_metadata :
  Sample.parseHTTPDate Sample.date = Ok Sample.instant /\
  Time.After (Time.Truncate Sample.instant Time.Second) Sample.instant = false /\
  Http.Status (Sample.response "Blocked:true" "Owner" Sample.metadata Sample.instant
                 (Sample.ifModifiedSinceHeader Sample.date)) = 304 /\
  Http.Headers (Sample.response "Blocked:true" "Owner" Sample.metadata Sample.instant
                  (Sample.ifModifiedSinceHeader Sample.date)) !! "X-Goog-Meta-Owner"
  = Some ["ops"].
Proof. vm_compute. repeat split. Qed.

(** Against C7 as stated: the key [Owner] is in the metadata and in the
    passthrough set, the response is 200, and no header is sent for the key,
    its value being empty. *)
Lemma empty_metadata_value_not_passed :
  (<["Owner" := EmptyString]> Sample.metadata : gmap string string) !! "Owner"
  = Some EmptyString /\
  "Owner" ∈ parsePassthroughMeta (Sample.flags "Blocked:true" "Owner") /\
  Http.Status (Sample.response "Blocked:true" "Owner"
                 (<["Owner" := EmptyString]> Sample.metadata) Sample.instant ∅) = 200 /\
  Http.Headers (Sample.response "Blocked:true" "Owner"
                  (<["Owner" := EmptyString]> Sample.metadata) Sample.instant ∅)
    !! "X-Goog-Meta-Owner" = None.
Proof.
  split; [reflexivity|]. split; [|vm_compute; split; reflexivity].
  unfold parsePassthroughMeta. simpl. set_solver.
Qed.

(** Two whitelisted keys that differ in letter case only: the 200 response
    has the one header [X-Goog-Meta-Owner], holding both values, and no
    header under either name as the handler wrote it. *)
Example case_colliding_keys_share_header :
  Http.Status (Sample.response "Blocked:true" "owner,Owner" Sample.twoOwners
                 Sample.instant ∅) = 200 /\
  (exists vs,
     Http.Headers (Sample.response "Blocked:true" "owner,Owner" Sample.twoOwners
                     Sample.instant ∅) !! "X-Goog-Meta-Owner" = Some vs /\
     vs ≡ₚ ["alice"; "bob"]) /\
  Http.Headers (Sample.response "Blocked:true" "owner,Owner" Sample.twoOwners
                  Sample.instant ∅) !! (prefix +:+ "owner") = None.
Proof.
  split; [vm_compute; reflexivity|]. split; [|vm_compute; reflexivity].
  eexists. split; [vm_compute; reflexivity|].
  first [reflexivity | apply perm_swap].
Qed.

(** ** The theorems applied to the sample data *)

(** An object updated at the date of the request's [If-Modified-Since]
    header: the 304 carries the header of the one whitelisted key. *)
Lemma not_modified_response_witness :
  Http.Status (Sample.response "Blocked:true" "Owner" Sample.metadata Sample.instant
                 (Sample.ifModifiedSinceHeader Sample.date)) = 304 /\
  Http.Headers (Sample.response "Blocked:true" "Owner" Sample.metadata Sample.instant
                  (Sample.ifModifiedSinceHeader Sample.date)) !! "X-Goog-Meta-Owner"
  = Some ["ops"].
Proof.
  destruct (not_modified_response
              (Sample.flags "Blocked:true" "Owner")
              (Sample.client Sample.metadata Sample.instant)
              Sample.parseHTTPDate Sample.formatHTTPDate
              (Sample.request (Sample.ifModifiedSinceHeader Sample.date))
              (Sample.attrs Sample.metadata Sample.instant)
              Sample.date [] Sample.instant)
    as (Hstatus & _ & _ & _ & _ & Hsingle); try (vm_compute; reflexivity).
  split; [exact Hstatus|].
  change "X-Goog-Meta-Owner" with (Textproto.CanonicalMIMEHeaderKey (prefix +:+ "Owner")).
  apply Hsingle; [reflexivity | | discriminate |].
  - clear. unfold parsePassthroughMeta. simpl. set_solver.
  - intros k' v' _ Hin _ _. clear -Hin.
    unfold parsePassthroughMeta in Hin. simpl in Hin. set_solver.
Defined.

(** The rule [Blocked:true]: an object with the metadata [Blocked = true] is
    answered 404, and an object without the key [Blocked] is not blocked. *)
Lemma blocked_object_not_found_witness :
  Sample.response "Blocked:true" "Owner" (<["Blocked" := "true"]> Sample.metadata)
                  Sample.instant ∅
  = {| Http.Status := 404; Http.Headers := ∅; Http.Body := EmptyString |} /\
  isBlocked (Sample.flags "Blocked:true" "Owner")
            (Sample.attrs (delete "Blocked" Sample.metadata) Sample.instant)
  = (false, None).
Proof.
  split.
  - apply (blocked_object_not_found
             (Sample.flags "Blocked:true" "Owner")
             (Sample.client (<["Blocked" := "true"]> Sample.metadata) Sample.instant)
             Sample.parseHTTPDate Sample.formatHTTPDate
             (Sample.request ∅)
             (Sample.attrs (<["Blocked" := "true"]> Sample.metadata) Sample.instant)
             "Blocked" "true");
      vm_compute; reflexivity.
  - apply (blocked_object_not_found
             (Sample.flags "Blocked:true" "Owner")
             (Sample.client (delete "Blocked" Sample.metadata) Sample.instant)
             Sample.parseHTTPDate Sample.formatHTTPDate
             (Sample.request ∅)
             (Sample.attrs (delete "Blocked" Sample.metadata) Sample.instant)
             "Blocked" "true");
      vm_compute; (reflexivity || discriminate).
Defined.

(** An object updated half a second after the date of the header, whose
    truncated update time is that date, is answered 304; an object updated a
    second after it is answered 200 with its content. *)
Lemma conditional_get_decision_witness :
  (Http.Status (Sample.response "Blocked:true" "Owner" Sample.metadata
                  (Sample.instant + 500000000)
                  (Sample.ifModifiedSinceHeader Sample.date)) = 304 /\
   Http.Body (Sample.response "Blocked:true" "Owner" Sample.metadata
                (Sample.instant + 500000000)
                (Sample.ifModifiedSinceHeader Sample.date)) = EmptyString) /\
  (Http.Status (Sample.response "Blocked:true" "Owner" Sample.metadata
                  (Sample.instant + Time.Second)
                  (Sample.ifModifiedSinceHeader Sample.date)) = 200 /\
   Http.Body (Sample.response "Blocked:true" "Owner" Sample.metadata
                (Sample.instant + Time.Second)
                (Sample.ifModifiedSinceHeader Sample.date)) = "hello").
Proof.
  split.
  - apply (conditional_get_decision
             (Sample.flags "Blocked:true" "Owner")
             (Sample.client Sample.metadata (Sample.instant + 500000000))
             Sample.parseHTTPDate Sample.formatHTTPDate
             (Sample.request (Sample.ifModifiedSinceHeader Sample.date))
             (Sample.attrs Sample.metadata (Sample.instant + 500000000))
             Sample.date [] Sample.instant);
      vm_compute; (reflexivity || discriminate).
  - destruct (conditional_get_decision
                (Sample.flags "Blocked:true" "Owner")
                (Sample.client Sample.metadata (Sample.instant + Time.Second))
                Sample.parseHTTPDate Sample.formatHTTPDate
                (Sample.request (Sample.ifModifiedSinceHeader Sample.date))
                (Sample.attrs Sample.metadata (Sample.instant + Time.Second))
                Sample.date [] Sample.instant
                eq_refl eq_refl eq_refl eq_refl) as [_ Hserved].
    apply (Hserved eq_refl Sample.reader eq_refl).
Defined.

(** An object the backend does not have, and an object that cannot be
    opened for reading. *)
Lemma backend_error_response_witness :
  (Http.Status (respond (Sample.flags "Blocked:true" "Owner")
                  (Sample.client Sample.metadata Sample.instant)
                  Sample.parseHTTPDate Sample.formatHTTPDate (Sample.requestMissing ∅)) = 404 /\
   Http.Body (respond (Sample.flags "Blocked:true" "Owner")
                (Sample.client Sample.metadata Sample.instant)
                Sample.parseHTTPDate Sample.formatHTTPDate (Sample.requestMissing ∅))
   = "storage: object doesn't exist" +:+ newline) /\
  (Http.Status (respond (Sample.flags "Blocked:true" "Owner")
                  (Sample.unreadable Sample.metadata Sample.instant
                     (errorString "storage: permission denied"))
                  Sample.parseHTTPDate Sample.formatHTTPDate (Sample.request ∅)) = 500 /\
   Http.Body (respond (Sample.flags "Blocked:true" "Owner")
                (Sample.unreadable Sample.metadata Sample.instant
                   (errorString "storage: permission denied"))
                Sample.parseHTTPDate Sample.formatHTTPDate (Sample.request ∅))
   = "storage: permission denied" +:+ newline).
Proof.
  split.
  - destruct (backend_error_response
                (Sample.flags "Blocked:true" "Owner")
                (Sample.client Sample.metadata Sample.instant)
                Sample.parseHTTPDate Sample.formatHTTPDate
                (Sample.requestMissing ∅)) as [Hattrs _].
    destruct (Hattrs ErrObjectNotExist eq_refl) as (Hnotfound & _ & Hbody).
    split; [exact (Hnotfound eq_refl) | exact Hbody].
  - destruct (backend_error_response
                (Sample.flags "Blocked:true" "Owner")
                (Sample.unreadable Sample.metadata Sample.instant
                   (errorString "storage: permission denied"))
                Sample.parseHTTPDate Sample.formatHTTPDate
                (Sample.request ∅)) as [_ Hreader].
    destruct (Hreader (Sample.attrs Sample.metadata Sample.instant)
                      (errorString "storage: permission denied")
                      eq_refl eq_refl eq_refl eq_refl) as (_ & Hother & Hbody).
    split; [apply Hother; discriminate | exact Hbody].
Defined.

(** The sample object, whose key [Owner] is alone under its header, and an
    object with the keys [owner] and [Owner], both whitelisted, which share
    the header [X-Goog-Meta-Owner]. *)
Lemma passthrough_headers_of_served_witness :
  Http.Headers (Sample.response "Blocked:true" "Owner" Sample.metadata Sample.instant ∅)
    !! "X-Goog-Meta-Owner" = Some ["ops"] /\
  carries
    (Http.Headers (Sample.response "Blocked:true" "owner,Owner" Sample.twoOwners
                     Sample.instant ∅) !! "X-Goog-Meta-Owner")
    (metaValues (Sample.flags "Blocked:true" "owner,Owner")
                (Sample.attrs Sample.twoOwners Sample.instant) "X-Goog-Meta-Owner").
Proof.
  split.
  - destruct (passthrough_headers_of_served
                (Sample.flags "Blocked:true" "Owner")
                (Sample.client Sample.metadata Sample.instant)
                Sample.parseHTTPDate Sample.formatHTTPDate
                (Sample.request ∅)
                (Sample.attrs Sample.metadata Sample.instant))
      as (_ & _ & Hsingle);
      try match goal with
          | |- Storage.ObjectAttrsOf _ _ = _ => reflexivity
          | |- Http.Status _ = _ => vm_compute; reflexivity
          end.
    change "X-Goog-Meta-Owner" with (Textproto.CanonicalMIMEHeaderKey (prefix +:+ "Owner")).
    apply Hsingle; [reflexivity | | discriminate |].
    + clear. unfold parsePassthroughMeta. simpl. set_solver.
    + intros k' v' _ Hin _ _. clear -Hin.
      unfold parsePassthroughMeta in Hin. simpl in Hin. set_solver.
  - destruct (passthrough_headers_of_served
                (Sample.flags "Blocked:true" "owner,Owner")
                (Sample.client Sample.twoOwners Sample.instant)
                Sample.parseHTTPDate Sample.formatHTTPDate
                (Sample.request ∅)
                (Sample.attrs Sample.twoOwners Sample.instant))
      as (Hcarries & _ & _);
      try match goal with
          | |- Storage.ObjectAttrsOf _ _ = _ => reflexivity
          | |- Http.Status _ = _ => vm_compute; reflexivity
          end.
    apply Hcarries. unfold attributeHeaders. intros Hin.
    repeat (apply elem_of_cons in Hin as [Hin|Hin]; [discriminate|]). inversion Hin.
Defined.

(** The content headers of the sample object, whose content type is
    [text/plain] and whose reader has size 5 and no content encoding. *)
Lemma content_headers_of_served_witness :
  let h := Http.Headers
             (Sample.response "Blocked:true" "Owner" Sample.metadata Sample.instant ∅) in
  h !! "Content-Type" = strHeader "text/plain" /\
  h !! "Content-Language" = strHeader EmptyString /\
  h !! "Cache-Control" = strHeader "no-cache" /\
  h !! "Content-Disposition" = strHeader EmptyString /\
  h !! "Content-Encoding" = strHeader EmptyString /\
  h !! "Content-Length" = (if 0 <? 5 then Some [FormatInt 5] else None).
Proof.
  apply (content_headers_of_served
           (Sample.flags "Blocked:true" "Owner")
           (Sample.client Sample.metadata Sample.instant)
           Sample.parseHTTPDate Sample.formatHTTPDate
           (Sample.request ∅)
           (Sample.attrs Sample.metadata Sample.instant)
           Sample.reader);
    vm_compute; reflexivity.
Defined.

(** The flags without [-pass-through]. *)
Lemma empty_passthrough_flag_witness :
  parsePassthroughMeta (Sample.flags "Blocked:true" EmptyString) = {[ EmptyString ]} /\
  (forall attr v,
     Storage.Metadata attr !! EmptyString = Some v -> v <> EmptyString ->
     Http.hdr (writeMetadataHeaders (Sample.flags "Blocked:true" EmptyString) attr
                 Http.newResponseWriter) !! prefix = Some [v]).
Proof.
  apply (empty_passthrough_flag (Sample.flags "Blocked:true" EmptyString)); reflexivity.
Defined.

(** The flags without [-block-if]. *)
Lemma empty_block_rule_witness :
  Strings.Split (deref (blockIfMeta (Sample.flags EmptyString "Owner"))) ":" = [EmptyString] /\
  (exists e, (parseBlockIfMeta (Sample.flags EmptyString "Owner")).2 = Some e) /\
  Http.Status (Sample.response EmptyString "Owner" Sample.metadata Sample.instant ∅) = 500.
Proof.
  apply (empty_block_rule
           (Sample.flags EmptyString "Owner")
           (Sample.client Sample.metadata Sample.instant)
           Sample.parseHTTPDate Sample.formatHTTPDate
           (Sample.request ∅)
           (Sample.attrs Sample.metadata Sample.instant));
    reflexivity.
Defined.

(** * Further properties of the handler and its helpers *)

(** ** Substrings and parts *)

Lemma prefix_spec sub s :
  String.prefix sub s = true <-> exists b, s = sub +:+ b.
Proof.
  revert s. induction sub as [|c sub IH]; intros s.
  - split; [intros _; now exists s | intros _; now destruct s].
  - destruct s as [|a s]; simpl.
    + split; [discriminate | intros [b Hb]; discriminate].
    + destruct (ascii_dec c a) as [->|Hne].
      * rewrite IH. split; intros [b Hb]; exists b.
        -- now rewrite Hb.
        -- change (String a sub +:+ b) with (String a (sub +:+ b)) in Hb. congruence.
      * split; [discriminate|]. intros [b Hb].
        change (String c sub +:+ b) with (String c (sub +:+ b)) in Hb. congruence.
Qed.

(** [strings.Contains] holds exactly of the strings that have [substr]
    somewhere inside. *)
Lemma Contains_spec s substr :
  Strings.Contains s substr = true <-> exists a b, s = a +:+ substr +:+ b.
Proof.
  induction s as [|c s IH].
  - cbn [Strings.Contains]. rewrite orb_false_r, prefix_spec. split.
    + intros [b Hb]. now exists EmptyString, b.
    + intros (a & b & Hab). destruct a as [|x a]; [now exists b | discriminate].
  - cbn [Strings.Contains]. rewrite orb_true_iff, prefix_spec, IH. split.
    + intros [[b Hb]|(a & b & Hab)].
      * now exists EmptyString, b.
      * exists (String c a), b. now rewrite Hab.
    + intros (a & b & Hab). destruct a as [|x a].
      * left. now exists b.
      * right. exists a, b.
        change (String x a +:+ substr +:+ b) with (String x (a +:+ substr +:+ b)) in Hab.
        congruence.
Qed.

(** A split has at least one part. *)
Lemma split_from_nonempty sep skip cur s : Strings.split_from sep skip cur s <> [].
Proof.
  revert skip cur. induction s as [|a s IH]; intros skip cur; [discriminate|].
  cbn [Strings.split_from]. destruct skip; [|apply IH].
  destruct (String.prefix sep (String a s)); [discriminate | apply IH].
Qed.

(** The parts of a split on one byte do not contain the byte, and joined
    with it they give back the string. *)
Lemma split_from_char c cur s :
  free_of c cur ->
  Forall (free_of c) (Strings.split_from (String c EmptyString) O cur s) /\
  Strings.Join (Strings.split_from (String c EmptyString) O cur s) (String c EmptyString)
  = cur +:+ s.
Proof.
  assert (Hfree_app : forall u a, free_of c u -> a <> c -> free_of c (u +:+ String a EmptyString)).
  { induction u as [|b u IHu]; intros a Hu Ha; [now split|].
    destruct Hu as [Hb Hu]. split; [assumption | now apply IHu]. }
  revert cur. induction s as [|a s IH]; intros cur Hcur.
  - simpl. split; [now constructor | now rewrite append_empty_r].
  - cbn [Strings.split_from]. rewrite prefix_char. case_bool_decide as Hca.
    + subst a. simpl. destruct (IH EmptyString I) as [Hparts Hjoin]. split.
      * now constructor.
      * destruct (Strings.split_from (String c EmptyString) O EmptyString s) as [|p ps] eqn:Hs.
        -- now apply split_from_nonempty in Hs.
        -- change (Strings.Join (cur :: p :: ps) (String c EmptyString))
             with (cur +:+ String c EmptyString +:+ Strings.Join (p :: ps) (String c EmptyString)).
           now rewrite Hjoin.
    + destruct (IH (cur +:+ String a EmptyString)) as [Hparts Hjoin].
      * apply Hfree_app; [assumption | congruence].
      * split; [assumption|]. now rewrite Hjoin, append_char_assoc.
Qed.

(** ** The helpers of the handler *)

(** X1: the object is asked for in compressed-read mode exactly when
    [clientAcceptsGzip] holds, and that is exactly when the first value of
    the [Accept-Encoding] header has [gzip] somewhere inside; further values
    of the header are not looked at, and whatever surrounds the four bytes
    (as in [gzip;q=0] or [xgzipx]) does not matter. *)
Theorem clientAcceptsGzip_iff (r : Http.Request) :
  Storage.readCompressed (objectOf r) = clientAcceptsGzip r /\
  (clientAcceptsGzip r = true <->
   exists v rest a b,
     Http.Header_ r !! "Accept-Encoding" = Some (v :: rest) /\ v = a +:+ "gzip" +:+ b).
Proof.
  split; [reflexivity|].
  unfold clientAcceptsGzip, Http.Header_Get.
  change (Textproto.CanonicalMIMEHeaderKey "Accept-Encoding") with "Accept-Encoding".
  rewrite Contains_spec. split.
  - intros (a & b & Hab).
    destruct (Http.Header_ r !! "Accept-Encoding") as [[|v rest]|].
    + destruct a; discriminate.
    + now exists v, rest, a, b.
    + destruct a; discriminate.
  - intros (v & rest & a & b & Hl & Hv). rewrite Hl. now exists a, b.
Qed.

(** X2: [parseBlockIfMeta] succeeds with [key] and [value] exactly when the
    flag is [key], a colon and [value], with no colon in either: a flag with
    no colon or with more than one is an error, and on success the flag is
    recovered from the result. *)
Theorem parseBlockIfMeta_ok_iff (flags : Flags) (key value : string) :
  parseBlockIfMeta flags = (key, value, None) <->
  deref (blockIfMeta flags) = key +:+ ":" +:+ value /\
  free_of ":"%char key /\ free_of ":"%char value.
Proof.
  split.
  - unfold parseBlockIfMeta, Strings.Split. intros Hp.
    destruct (split_from_char ":"%char EmptyString (deref (blockIfMeta flags)) I)
      as [Hparts Hjoin].
    destruct (Strings.split_from ":" O EmptyString (deref (blockIfMeta flags)))
      as [|k [|v [|x l]]]; try discriminate.
    inversion Hp; subst k v.
    apply Forall_cons in Hparts as [Hk Hparts].
    apply Forall_cons in Hparts as [Hv _].
    split; [|now split]. symmetry. exact Hjoin.
  - intros (Hflag & Hk & Hv). unfold parseBlockIfMeta.
    now rewrite Hflag, Split_key_value.
Qed.

(** X3: under a rule [key:value], [isBlocked] answers true exactly for the
    objects whose metadata maps [key] to [value] and, when [value] is empty,
    for the objects that have no [key] at all: a rule with an empty value
    blocks every object without the key. *)
Theorem isBlocked_true_iff (flags : Flags) (attr : Storage.ObjectAttrs) (key value : string) :
  Strings.Split (deref (blockIfMeta flags)) ":" = [key; value] ->
  (isBlocked flags attr = (true, None) <->
   Storage.Metadata attr !! key = Some value \/
   (Storage.Metadata attr !! key = None /\ value = EmptyString)).
Proof.
  intros Hsplit. unfold isBlocked, parseBlockIfMeta. rewrite Hsplit.
  destruct (Storage.Metadata attr !! key) as [v|]; simpl.
  - case_bool_decide as Hv; split.
    + intros _. left. now subst.
    + reflexivity.
    + discriminate.
    + intros [Heq|[Hnone _]]; [congruence | discriminate].
  - case_bool_decide as Hv; split.
    + intros _. right. now split.
    + reflexivity.
    + discriminate.
    + intros [Heq|[_ Hempty]]; [discriminate | congruence].
Qed.

(** X4: a metadata key is in the passthrough set exactly when it is one of
    the parts of the flag between commas, as they stand (blanks are not
    trimmed); so no key that contains a comma can be whitelisted. *)
Theorem parsePassthroughMeta_elem (flags : Flags) (k : string) :
  (k ∈ parsePassthroughMeta flags <->
   k ∈ Strings.Split (deref (passthroughMeta flags)) ",") /\
  (k ∈ parsePassthroughMeta flags -> free_of ","%char k).
Proof.
  assert (Hfold : forall (l : list string) (acc : gset string),
             k ∈ foldl (fun set meta => {[meta]} ∪ set) acc l <-> k ∈ l \/ k ∈ acc).
  { induction l as [|m l IH]; intros acc; simpl.
    - set_solver.
    - rewrite IH. set_solver. }
  assert (Hiff : k ∈ parsePassthroughMeta flags <->
                 k ∈ Strings.Split (deref (passthroughMeta flags)) ",").
  { unfold parsePassthroughMeta. rewrite Hfold. set_solver. }
  split; [exact Hiff|].
  intros Hin. apply Hiff in Hin. unfold Strings.Split in Hin.
  destruct (split_from_char ","%char EmptyString (deref (passthroughMeta flags)) I)
    as [Hparts _].
  rewrite Forall_forall in Hparts. now apply Hparts.
Qed.

(** ** The handler as a whole *)

Lemma error_body_not_empty e : Error e +:+ newline <> EmptyString.
Proof. destruct (Error e); discriminate. Qed.

Section Responses.

Variable flags : Flags.
Variable client : Storage.Client.
Variable parseHTTPDate : string -> result Time.t.
Variable formatHTTPDate : Time.t -> string.

Local Abbreviation resp := (respond flags client parseHTTPDate formatHTTPDate).
Local Abbreviation unchanged := (notModified flags parseHTTPDate).
Local Abbreviation afterMeta attr := (writeMetadataHeaders flags attr Http.newResponseWriter).

(** X5: the handler answers with one of the four statuses 200, 304, 404
    and 500, whatever the request, the flags and the backend. *)
Theorem status_range (r : Http.Request) :
  Http.Status (resp r) ∈ [200; 304; 404; 500].
Proof.
  destruct (Storage.ObjectAttrsOf client (objectOf r)) as [attr|e] eqn:Ha.
  - destruct (isBlocked flags attr) as [b [e|]] eqn:Hb.
    + rewrite (resp_rule_error _ _ _ _ r attr b e Ha Hb).
      rewrite finish_handleError by reflexivity. destruct e; simpl; set_solver.
    + destruct b.
      * rewrite (resp_blocked _ _ _ _ r attr Ha Hb). simpl. set_solver.
      * destruct (unchanged attr r) eqn:Hn.
        -- rewrite (resp_not_modified _ _ _ _ r attr Ha Hb Hn). simpl. set_solver.
        -- destruct (Storage.NewReader client (objectOf r)) as [objr|e] eqn:Hr.
           ++ rewrite (resp_served _ _ _ _ r attr objr Ha Hb Hn Hr). simpl. set_solver.
           ++ rewrite (resp_reader_error _ _ _ _ r attr e Ha Hb Hn Hr).
              rewrite finish_handleError by now rewrite writeMetadataHeaders_sent.
              destruct e; simpl; set_solver.
  - rewrite (resp_attrs_error _ _ _ _ r e Ha).
    rewrite finish_handleError by reflexivity. destruct e; simpl; set_solver.
Qed.

(** X6: a 200 is sent only for an object whose attributes were fetched,
    that the rule does not block and whose reader was opened, and the body
    of the response is then exactly the content the reader yields. *)
Theorem served_only_from_reader (r : Http.Request) :
  Http.Status (resp r) = 200 ->
  exists attr objr,
    Storage.ObjectAttrsOf client (objectOf r) = Ok attr /\
    isBlocked flags attr = (false, None) /\
    Storage.NewReader client (objectOf r) = Ok objr /\
    Http.Body (resp r) = Storage.content objr.
Proof.
  intros Hs.
  destruct (Storage.ObjectAttrsOf client (objectOf r)) as [attr|e] eqn:Ha.
  - destruct (resp_200_inv _ _ _ _ r attr Ha Hs) as (Hb & Hn & objr & Hr).
    exists attr, objr. repeat split; try assumption.
    now rewrite (resp_served _ _ _ _ r attr objr Ha Hb Hn Hr).
  - rewrite (resp_attrs_error _ _ _ _ r e Ha) in Hs.
    rewrite finish_handleError in Hs by reflexivity. destruct e; discriminate.
Qed.

(** X7: for a fetched object, the response is a 404 with an empty body
    exactly when [isBlocked] answers true: the 404 of a missing object always
    has the error text as body, so the two are told apart by the body. *)
Theorem bare_not_found_iff_blocked (r : Http.Request) (attr : Storage.ObjectAttrs) :
  Storage.ObjectAttrsOf client (objectOf r) = Ok attr ->
  (Http.Status (resp r) = 404 /\ Http.Body (resp r) = EmptyString <->
   isBlocked flags attr = (true, None)).
Proof.
  intros Ha. split.
  - intros [Hs Hbody].
    destruct (isBlocked flags attr) as [b [e|]] eqn:Hb.
    + rewrite (resp_rule_error _ _ _ _ r attr b e Ha Hb) in Hbody.
      rewrite finish_handleError in Hbody by reflexivity.
      now apply error_body_not_empty in Hbody.
    + destruct b; [reflexivity|]. exfalso.
      destruct (unchanged attr r) eqn:Hn.
      * rewrite (resp_not_modified _ _ _ _ r attr Ha Hb Hn) in Hs. discriminate.
      * destruct (Storage.NewReader client (objectOf r)) as [objr|e] eqn:Hr.
        -- rewrite (resp_served _ _ _ _ r attr objr Ha Hb Hn Hr) in Hs. discriminate.
        -- rewrite (resp_reader_error _ _ _ _ r attr e Ha Hb Hn Hr) in Hbody.
           rewrite finish_handleError in Hbody by now rewrite writeMetadataHeaders_sent.
           simpl in Hbody. rewrite writeMetadataHeaders_written in Hbody.
           now apply error_body_not_empty in Hbody.
  - intros Hb. now rewrite (resp_blocked _ _ _ _ r attr Ha Hb).
Qed.

(** X8: on a 200 response the [Last-Modified] header is sent, with the
    formatted update time of the object (not truncated by the handler) as its
    only value, exactly when that time is not the zero time. *)
Theorem last_modified_of_served (r : Http.Request) (attr : Storage.ObjectAttrs) :
  Storage.ObjectAttrsOf client (objectOf r) = Ok attr ->
  Http.Status (resp r) = 200 ->
  Http.Headers (resp r) !! "Last-Modified"
  = if Time.IsZero (Storage.Updated attr) then None
    else Some [formatHTTPDate (Storage.Updated attr)].
Proof.
  intros Ha Hs.
  destruct (resp_200_inv _ _ _ _ r attr Ha Hs) as (Hb & Hn & objr & Hr).
  rewrite (resp_served _ _ _ _ r attr objr Ha Hb Hn Hr). simpl.
  unfold contentHeaders.
  rewrite (setIntHeader_lookup_ne parseHTTPDate formatHTTPDate) by discriminate.
  rewrite !(setStrHeader_lookup_ne parseHTTPDate) by discriminate.
  rewrite setTimeHeader_lookup.
  rewrite afterMeta_attribute by (unfold attributeHeaders; set_solver).
  unfold Time.IsZero, Time.zero.
  destruct (Z.eqb_spec (Storage.Updated attr) 0); case_decide; try reflexivity; tauto.
Qed.

(** X9: when the object cannot be opened for reading, the error response
    carries the two headers of [http.Error] and, under every other name,
    what the loop over the metadata wrote before the reader was opened: the
    values of the whitelisted, non-empty metadata keys that have the name as
    canonical form of the prefixed key, in some order, and nothing else. *)
Theorem reader_error_headers (r : Http.Request) (attr : Storage.ObjectAttrs) (e : error) :
  Storage.ObjectAttrsOf client (objectOf r) = Ok attr ->
  isBlocked flags attr = (false, None) ->
  unchanged attr r = false ->
  Storage.NewReader client (objectOf r) = Err e ->
  Http.Headers (resp r) !! "Content-Type" = Some ["text/plain; charset=utf-8"] /\
  Http.Headers (resp r) !! "X-Content-Type-Options" = Some ["nosniff"] /\
  (forall name, name <> "Content-Type" -> name <> "X-Content-Type-Options" ->
     carries (Http.Headers (resp r) !! name) (metaValues flags attr name)) /\
  (forall name v,
     v ∈ metaValues flags attr name <->
     exists k, Storage.Metadata attr !! k = Some v /\ k ∈ parsePassthroughMeta flags /\
               v <> EmptyString /\ Textproto.CanonicalMIMEHeaderKey (prefix +:+ k) = name).
Proof.
  intros Ha Hb Hn Hr. rewrite (resp_reader_error _ _ _ _ r attr e Ha Hb Hn Hr).
  rewrite finish_handleError by now rewrite writeMetadataHeaders_sent.
  simpl. unfold Http.Header_Set.
  change (Textproto.CanonicalMIMEHeaderKey "Content-Type") with "Content-Type".
  change (Textproto.CanonicalMIMEHeaderKey "X-Content-Type-Options")
    with "X-Content-Type-Options".
  split; [|split; [|split]].
  - now rewrite lookup_insert_ne, lookup_insert_eq by discriminate.
  - now rewrite lookup_insert_eq.
  - intros name H1 H2. rewrite !lookup_insert_ne by congruence.
    rewrite writeMetadataHeaders_lookup. apply carries_extend.
  - intros name v. apply metaValues_elem.
Qed.

(** X10: revalidation.  When the date parser reads the formatted update
    time of an object back as that time truncated to whole seconds, a request
    that sends the [Last-Modified] value of the object as its
    [If-Modified-Since] is answered 304 with an empty body. *)
Theorem revalidation_not_modified (r : Http.Request) (attr : Storage.ObjectAttrs)
    (rest : list string) :
  Storage.ObjectAttrsOf client (objectOf r) = Ok attr ->
  isBlocked flags attr = (false, None) ->
  parseHTTPDate (formatHTTPDate (Storage.Updated attr))
  = Ok (Time.Truncate (Storage.Updated attr) Time.Second) ->
  Http.Header_ r !! "If-Modified-Since"
  = Some (formatHTTPDate (Storage.Updated attr) :: rest) ->
  Http.Status (resp r) = 304 /\ Http.Body (resp r) = EmptyString.
Proof.
  intros Ha Hb Hround Hh.
  assert (Hn : unchanged attr r = true).
  { rewrite (notModified_parsed _ _ attr r _ rest _ Hh Hround).
    unfold Time.After. now rewrite Z.ltb_irrefl. }
  now rewrite (resp_not_modified _ _ _ _ r attr Ha Hb Hn).
Qed.

(** X11: when the attributes cannot be fetched, the response does not
    depend on the flags: a missing object is answered 404 with the backend's
    text even under a block rule that does not parse. *)
Theorem attrs_error_ignores_flags (flags' : Flags) (r : Http.Request) (e : error) :
  Storage.ObjectAttrsOf client (objectOf r) = Err e ->
  resp r = respond flags' client parseHTTPDate formatHTTPDate r /\
  Http.Status (resp r) = errorStatus e /\
  Http.Body (resp r) = Error e +:+ newline.
Proof.
  intros Ha.
  rewrite (resp_attrs_error flags client parseHTTPDate formatHTTPDate r e Ha).
  rewrite (resp_attrs_error flags' client parseHTTPDate formatHTTPDate r e Ha).
  rewrite finish_handleError by reflexivity. now repeat split.
Qed.

(** X12: the handler logs at most one line for a request, and none without
    [-v]. *)
Theorem proxy_log (w : Http.ResponseWriter) (r : Http.Request) :
  (length (proxy flags client parseHTTPDate formatHTTPDate w r).2 <= 1)%nat /\
  (deref (verbose flags) = false ->
   (proxy flags client parseHTTPDate formatHTTPDate w r).2 = []).
Proof.
  split; [|apply proxy_quiet].
  unfold proxy.
  destruct (Storage.ObjectAttrsOf client (objectOf r)) as [attr|e]; [|simpl; lia].
  destruct (isBlocked flags attr) as [[|] [err|]]; try (simpl; lia).
  - simpl. destruct (deref (verbose flags)); simpl; lia.
  - unfold ifModifiedSince.
    destruct (Http.Header_ r !! "If-Modified-Since") as [[|lastStr rest]|]; try (simpl; lia).
    destruct (Http.ParseTime parseHTTPDate lastStr) as [last [e|]];
      destruct (deref (verbose flags)); destruct (negb _); simpl; lia.
Qed.

End Responses.

(** X13: the response does not depend on [-v]: logging changes nothing of
    what the client receives. *)
Theorem response_ignores_verbose (v v' : ptr bool) (rule passthrough : ptr string)
    (client : Storage.Client) (parseHTTPDate : string -> result Time.t)
    (formatHTTPDate : Time.t -> string) (r : Http.Request) :
  respond {| verbose := v; blockIfMeta := rule; passthroughMeta := passthrough |}
          client parseHTTPDate formatHTTPDate r
  = respond {| verbose := v'; blockIfMeta := rule; passthroughMeta := passthrough |}
            client parseHTTPDate formatHTTPDate r.
Proof.
  unfold respond, proxy.
  destruct (Storage.ObjectAttrsOf client (objectOf r)) as [attr|e]; [|reflexivity].
  change (isBlocked {| verbose := v'; blockIfMeta := rule; passthroughMeta := passthrough |} attr)
    with (isBlocked {| verbose := v; blockIfMeta := rule; passthroughMeta := passthrough |} attr).
  destruct (isBlocked _ attr) as [[|] [err|]]; try reflexivity.
  change (writeMetadataHeaders
            {| verbose := v'; blockIfMeta := rule; passthroughMeta := passthrough |})
    with (writeMetadataHeaders
            {| verbose := v; blockIfMeta := rule; passthroughMeta := passthrough |}).
  unfold ifModifiedSince.
  destruct (Http.Header_ r !! "If-Modified-Since") as [[|lastStr rest]|]; try reflexivity.
  destruct (Http.ParseTime parseHTTPDate lastStr) as [last err].
  now destruct (negb _).
Qed.

Lemma ResponseWriter_eq (w1 w2 : Http.ResponseWriter) :
  Http.hdr w1 = Http.hdr w2 -> Http.sent w1 = Http.sent w2 ->
  Http.written w1 = Http.written w2 -> w1 = w2.
Proof. destruct w1, w2. simpl. now intros -> -> ->. Qed.

(** X14: Go visits the entries of a map in an order that is not specified.
    Two enumerations of the same entries make the loop of
    [writeMetadataHeaders] leave writers with the same headers, and under
    each header the same values up to their order; the order of the values
    can differ only under a header that several entries are written under,
    and when no header is shared the two writers are the same. *)
Theorem metadata_order_permutes_values (flags : Flags)
    (entries1 entries2 : list (string * string)) (w : Http.ResponseWriter) :
  entries1 ≡ₚ entries2 ->
  Http.sent (writeMetadataHeaders_range flags entries1 w)
  = Http.sent (writeMetadataHeaders_range flags entries2 w) /\
  Http.written (writeMetadataHeaders_range flags entries1 w)
  = Http.written (writeMetadataHeaders_range flags entries2 w) /\
  (forall name,
     match Http.hdr (writeMetadataHeaders_range flags entries1 w) !! name,
           Http.hdr (writeMetadataHeaders_range flags entries2 w) !! name with
     | Some vs1, Some vs2 => vs1 ≡ₚ vs2
     | None, None => True
     | _, _ => False
     end) /\
  ((forall name,
      (length (passthroughValues (parsePassthroughMeta flags) entries1 name) <= 1)%nat) ->
   writeMetadataHeaders_range flags entries1 w = writeMetadataHeaders_range flags entries2 w).
Proof.
  intros Hperm. unfold writeMetadataHeaders_range.
  split; [now rewrite !range_sent|]. split; [now rewrite !range_written|].
  assert (Hvalues : forall name,
             passthroughValues (parsePassthroughMeta flags) entries1 name
             ≡ₚ passthroughValues (parsePassthroughMeta flags) entries2 name)
    by (intros name; now apply passthroughValues_perm).
  split.
  - intros name. rewrite !range_lookup. specialize (Hvalues name).
    destruct (passthroughValues (parsePassthroughMeta flags) entries1 name) as [|v1 vs1].
    + apply Permutation_nil_l in Hvalues. rewrite <- Hvalues. simpl.
      now destruct (Http.hdr w !! name).
    + destruct (passthroughValues (parsePassthroughMeta flags) entries2 name) as [|v2 vs2].
      * now apply Permutation_nil_r in Hvalues.
      * simpl. now rewrite Hvalues.
  - intros Hone. apply ResponseWriter_eq; [|now rewrite !range_sent|now rewrite !range_written].
    apply map_eq. intros name. rewrite !range_lookup. f_equal.
    specialize (Hvalues name). specialize (Hone name).
    destruct (passthroughValues (parsePassthroughMeta flags) entries1 name) as [|v1 [|v1' vs1]].
    + now apply Permutation_nil_l in Hvalues.
    + now apply Permutation_singleton_l in Hvalues.
    + simpl in Hone. lia.
Qed.

(** Where a header is shared the order does matter: the keys [owner] and
    [Owner], visited in the two possible orders. *)
Example metadata_order_matters :
  Http.hdr (writeMetadataHeaders_range (Sample.flags "Blocked:true" "owner,Owner")
              [("owner", "alice"); ("Owner", "bob")] Http.newResponseWriter)
    !! "X-Goog-Meta-Owner" = Some ["alice"; "bob"] /\
  Http.hdr (writeMetadataHeaders_range (Sample.flags "Blocked:true" "owner,Owner")
              [("Owner", "bob"); ("owner", "alice")] Http.newResponseWriter)
    !! "X-Goog-Meta-Owner" = Some ["bob"; "alice"].
Proof. vm_compute. split; reflexivity. Qed.

(** ** The access log *)

(** On the server's writer, the handler over the writer operations is
    [proxy]. *)
Lemma proxy_on_plain flags client parseHTTPDate formatHTTPDate w r :
  proxy_on Http.ResponseWriter plainWriter flags client parseHTTPDate formatHTTPDate w r
  = proxy flags client parseHTTPDate formatHTTPDate w r.
Proof. reflexivity. Qed.

(** On a [wrapResponseWriter], each step of the handler acts on the embedded
    writer as it does on the server's writer; the recorded status changes
    with [WriteHeader] only. *)
Section Wrapped.

Variable flags : Flags.
Variable client : Storage.Client.
Variable parseHTTPDate : string -> result Time.t.
Variable formatHTTPDate : Time.t -> string.

Local Abbreviation wrap p c := {| ResponseWriter := p; status := c |}.

Lemma setStrHeader_on_wrap p c key value :
  setStrHeader_on _ wrapWriter (wrap p c) key value = wrap (setStrHeader p key value) c.
Proof. unfold setStrHeader_on, setStrHeader. now case_decide. Qed.

Lemma setIntHeader_on_wrap p c key value :
  setIntHeader_on _ wrapWriter (wrap p c) key value = wrap (setIntHeader p key value) c.
Proof. unfold setIntHeader_on, setIntHeader. now destruct (0 <? value). Qed.

Lemma setTimeHeader_on_wrap p c key value :
  setTimeHeader_on _ wrapWriter formatHTTPDate (wrap p c) key value
  = wrap (setTimeHeader formatHTTPDate p key value) c.
Proof. unfold setTimeHeader_on, setTimeHeader. now destruct (Time.IsZero value). Qed.

Lemma writeMetadataHeaders_on_wrap attr p c :
  writeMetadataHeaders_on _ wrapWriter flags attr (wrap p c)
  = wrap (writeMetadataHeaders flags attr p) c.
Proof.
  unfold writeMetadataHeaders_on, writeMetadataHeaders, writeMetadataHeaders_range.
  generalize (map_to_list (Storage.Metadata attr)) as entries.
  intros entries. revert p. induction entries as [|kv entries IH]; intros p; [reflexivity|].
  simpl. rewrite <- IH. f_equal.
  unfold passthroughEntry_on, passthroughEntry.
  case_decide; [apply setStrHeader_on_wrap | reflexivity].
Qed.

Lemma contentHeaders_on_wrap attr objr p c :
  contentHeaders_on _ wrapWriter formatHTTPDate attr objr (wrap p c)
  = wrap (contentHeaders formatHTTPDate attr objr p) c.
Proof.
  unfold contentHeaders_on, contentHeaders.
  now rewrite setTimeHeader_on_wrap, !setStrHeader_on_wrap, setIntHeader_on_wrap.
Qed.

Lemma io_Copy_on_wrap objr p c :
  io_Copy_on _ wrapWriter (wrap p c) objr = wrap (io_Copy p objr) c.
Proof. unfold io_Copy_on, io_Copy. now destruct (Storage.content objr). Qed.

Lemma handleError_on_wrap e p c :
  handleError_on _ wrapWriter (wrap p c) (Some e)
  = wrap (handleError p (Some e)) (errorStatus e).
Proof. now destruct e. Qed.

(** The status of a response whose status has not been written before. *)
Lemma Status_handleError p e :
  Http.sent p = None -> Http.Status (Http.finish (handleError p (Some e))) = errorStatus e.
Proof. intros Hs. now rewrite finish_handleError. Qed.

Lemma serveContent_on_wrap obj attr q :
  ResponseWriter (serveContent_on _ wrapWriter client formatHTTPDate obj attr
                    (wrap q Http.StatusOK))
  = serveContent client formatHTTPDate obj attr q /\
  (Http.sent q = None ->
   status (serveContent_on _ wrapWriter client formatHTTPDate obj attr (wrap q Http.StatusOK))
   = Http.Status (Http.finish (serveContent client formatHTTPDate obj attr q))).
Proof.
  unfold serveContent_on, serveContent.
  destruct (Storage.NewReader client obj) as [objr|e].
  - rewrite contentHeaders_on_wrap, io_Copy_on_wrap. cbn [ResponseWriter status].
    split; [reflexivity|]. intros Hs.
    now rewrite finish_io_Copy by now rewrite contentHeaders_sent.
  - rewrite handleError_on_wrap. cbn [ResponseWriter status].
    split; [reflexivity|]. intros Hs. now rewrite Status_handleError.
Qed.

(** The handler run on a [wrapResponseWriter] that starts at status 200
    writes to the embedded writer what [proxy] writes to the server's writer,
    logs the same lines, and, when no status had been written before, leaves
    as recorded status the status of the response. *)
Lemma proxy_on_wrap p r :
  let out := proxy_on _ wrapWriter flags client parseHTTPDate formatHTTPDate
                      (wrap p Http.StatusOK) r in
  let plain := proxy flags client parseHTTPDate formatHTTPDate p r in
  ResponseWriter out.1 = plain.1 /\
  out.2 = plain.2 /\
  (Http.sent p = None -> status out.1 = Http.Status (Http.finish plain.1)).
Proof.
  unfold proxy_on, proxy.
  destruct (Storage.ObjectAttrsOf client (objectOf r)) as [attr|e].
  2:{ rewrite handleError_on_wrap. cbn [fst snd ResponseWriter status].
      repeat split. intros Hs. now rewrite Status_handleError. }
  destruct (isBlocked flags attr) as [[|] [err|]].
  - rewrite handleError_on_wrap. cbn [fst snd ResponseWriter status].
    repeat split. intros Hs. now rewrite Status_handleError.
  - cbn [fst snd]. repeat split. intros Hs. cbn [wWriteHeader wrapWriter].
    unfold wrap_WriteHeader. cbn [ResponseWriter status].
    now rewrite finish_WriteHeader.
  - rewrite handleError_on_wrap. cbn [fst snd ResponseWriter status].
    repeat split. intros Hs. now rewrite Status_handleError.
  - rewrite writeMetadataHeaders_on_wrap.
    set (q := writeMetadataHeaders flags attr p).
    assert (Hq : Http.sent p = None -> Http.sent q = None)
      by (intros Hs; unfold q; now rewrite writeMetadataHeaders_sent).
    unfold ifModifiedSince_on, ifModifiedSince.
    destruct (Http.Header_ r !! "If-Modified-Since") as [[|lastStr rest]|].
    + cbn [fst snd]. destruct (serveContent_on_wrap (objectOf r) attr q) as [H1 H2].
      repeat split; [exact H1 | intros Hs; apply H2; auto].
    + destruct (Http.ParseTime parseHTTPDate lastStr) as [last err].
      destruct (negb _).
      * cbn [fst snd]. repeat split. intros Hs. cbn [wWriteHeader wrapWriter].
        unfold wrap_WriteHeader. cbn [ResponseWriter status].
        now rewrite finish_WriteHeader by auto.
      * cbn [fst snd]. destruct (serveContent_on_wrap (objectOf r) attr q) as [H1 H2].
        repeat split; [exact H1 | intros Hs; apply H2; auto].
    + cbn [fst snd]. destruct (serveContent_on_wrap (objectOf r) attr q) as [H1 H2].
      repeat split; [exact H1 | intros Hs; apply H2; auto].
Qed.

End Wrapped.

(** X15: [wrapper] around the handler.  The client receives what the
    handler alone would have sent; without [-v] nothing is logged; with [-v]
    the lines of the handler are followed by one access line, and the status
    in that line is the status of the response, also when the handler never
    called [WriteHeader] and the status is the 200 sent with the body. *)
Theorem access_line_of_proxy (flags : Flags) (client : Storage.Client)
    (parseHTTPDate : string -> result Time.t) (formatHTTPDate : Time.t -> string)
    (formatSeconds : Time.Duration -> string) (proc now : Time.t) (r : ServerRequest) :
  let out := wrapper flags formatSeconds
               (proxy_on _ wrapWriter flags client parseHTTPDate formatHTTPDate)
               proc now Http.newResponseWriter r in
  let response := respond flags client parseHTTPDate formatHTTPDate (request r) in
  Http.finish out.1 = response /\
  (deref (verbose flags) = false -> out.2 = []) /\
  (deref (verbose flags) = true ->
   exists addr,
     out.2 = (proxy flags client parseHTTPDate formatHTTPDate Http.newResponseWriter
                    (request r)).2
             ++ [accessLine addr (formatSeconds (now - proc)) (Http.Status response)
                            (Method r) (URL r)]).
Proof.
  intros out response. subst out response. unfold wrapper, respond.
  pose proof (proxy_on_wrap flags client parseHTTPDate formatHTTPDate
                Http.newResponseWriter (request r)) as Hsim.
  cbv zeta in Hsim.
  destruct (proxy_on _ wrapWriter flags client parseHTTPDate formatHTTPDate
              {| ResponseWriter := Http.newResponseWriter; status := Http.StatusOK |}
              (request r)) as [writer lines].
  cbn [fst snd] in *. destruct Hsim as (Hw & Hl & Hs). specialize (Hs eq_refl).
  rewrite Hw, Hl, Hs. repeat split.
  - intros Hv. rewrite Hv, app_nil_r. now apply proxy_quiet.
  - intros Hv. rewrite Hv. eauto.
Qed.

(** X16: the address of the access line.  With [-v], and whatever the
    handler, the line [wrapper] logs carries the first value of the
    [X-Forwarded-For] header when the header has a value, be it empty, and
    the remote address of the connection when the header is missing or has
    no value; the writer the handler leaves is passed on as it is. *)
Theorem access_line_address (flags : Flags) (formatSeconds : Time.Duration -> string)
    (fn : wrapResponseWriter -> Http.Request -> wrapResponseWriter * Log)
    (proc now : Time.t) (w : Http.ResponseWriter) (r : ServerRequest) :
  deref (verbose flags) = true ->
  let handled := fn {| ResponseWriter := w; status := 200 |} (request r) in
  let out := wrapper flags formatSeconds fn proc now w r in
  let line addr :=
    accessLine addr (formatSeconds (now - proc)) (status handled.1) (Method r) (URL r) in
  out.1 = ResponseWriter handled.1 /\
  (forall ip rest,
     Http.Header_ (request r) !! "X-Forwarded-For" = Some (ip :: rest) ->
     out.2 = handled.2 ++ [line ip]) /\
  (Http.Header_ (request r) !! "X-Forwarded-For" = None \/
   Http.Header_ (request r) !! "X-Forwarded-For" = Some [] ->
   out.2 = handled.2 ++ [line (RemoteAddr r)]).
Proof.
  intros Hv handled out line. subst handled out line. unfold wrapper, header.
  change Http.StatusOK with 200.
  destruct (fn {| ResponseWriter := w; status := 200 |} (request r)) as [writer lines].
  cbn [fst snd]. rewrite Hv. repeat split.
  - intros ip rest Hh. now rewrite Hh.
  - intros [Hh|Hh]; now rewrite Hh.
Qed.

(** X17: for the status codes the library accepts, 100 to 999,
    [WriteHeader] of a [wrapResponseWriter] records the code of every call,
    while the response takes the first code that is not informational.
    After two calls the recorded status is the second code; the status of the
    response is the first code when that is not informational, else the
    second when that is not informational, else the 200 sent when the
    handler returns.  The access line can thus show a status other than the
    one the client received. *)
Theorem wrap_WriteHeader_twice (w : wrapResponseWriter) (first second : Z) :
  Http.sent (ResponseWriter w) = None ->
  100 <= first <= 999 ->
  100 <= second <= 999 ->
  status (wrap_WriteHeader (wrap_WriteHeader w first) second) = second /\
  Http.Status (Http.finish (ResponseWriter (wrap_WriteHeader (wrap_WriteHeader w first) second)))
  = if Http.informational first
    then (if Http.informational second then 200 else second)
    else first.
Proof.
  intros Hs Hfirst Hsecond. split; [reflexivity|].
  apply checkWriteHeaderCode_range in Hfirst, Hsecond.
  unfold wrap_WriteHeader, Http.WriteHeader, Http.finish. cbn [ResponseWriter].
  rewrite Hs, Hfirst. cbn [negb].
  destruct (Http.informational first); cbn [Http.sent]; [|reflexivity].
  rewrite Hs, Hsecond. cbn [negb].
  destruct (Http.informational second); cbn [Http.sent]; [|reflexivity].
  now rewrite Hs.
Qed.

(** ** The further properties on the sample data *)

(** The rule [Blocked:], whose value is empty, blocks the sample object once
    its metadata has no key [Blocked]. *)
Lemma isBlocked_true_iff_witness :
  isBlocked (Sample.flags "Blocked:" "Owner")
            (Sample.attrs (delete "Blocked" Sample.metadata) Sample.instant)
  = (true, None).
Proof.
  apply (isBlocked_true_iff (Sample.flags "Blocked:" "Owner")
           (Sample.attrs (delete "Blocked" Sample.metadata) Sample.instant)
           "Blocked" EmptyString); [reflexivity|].
  right. split; reflexivity.
Defined.

(** The sample object, served. *)
Lemma served_only_from_reader_witness :
  exists attr objr,
    Storage.ObjectAttrsOf (Sample.client Sample.metadata Sample.instant)
      (objectOf (Sample.request ∅)) = Ok attr /\
    isBlocked (Sample.flags "Blocked:true" "Owner") attr = (false, None) /\
    Storage.NewReader (Sample.client Sample.metadata Sample.instant)
      (objectOf (Sample.request ∅)) = Ok objr /\
    Http.Body (Sample.response "Blocked:true" "Owner" Sample.metadata Sample.instant ∅)
    = Storage.content objr.
Proof.
  apply (served_only_from_reader
           (Sample.flags "Blocked:true" "Owner")
           (Sample.client Sample.metadata Sample.instant)
           Sample.parseHTTPDate Sample.formatHTTPDate (Sample.request ∅)).
  vm_compute. reflexivity.
Defined.

(** The sample object with the metadata [Blocked = true]. *)
Lemma bare_not_found_iff_blocked_witness :
  Http.Status (Sample.response "Blocked:true" "Owner"
                 (<["Blocked" := "true"]> Sample.metadata) Sample.instant ∅) = 404 /\
  Http.Body (Sample.response "Blocked:true" "Owner"
               (<["Blocked" := "true"]> Sample.metadata) Sample.instant ∅) = EmptyString <->
  isBlocked (Sample.flags "Blocked:true" "Owner")
            (Sample.attrs (<["Blocked" := "true"]> Sample.metadata) Sample.instant)
  = (true, None).
Proof.
  apply (bare_not_found_iff_blocked
           (Sample.flags "Blocked:true" "Owner")
           (Sample.client (<["Blocked" := "true"]> Sample.metadata) Sample.instant)
           Sample.parseHTTPDate Sample.formatHTTPDate (Sample.request ∅)
           (Sample.attrs (<["Blocked" := "true"]> Sample.metadata) Sample.instant)).
  vm_compute. reflexivity.
Defined.

(** The [Last-Modified] header of the sample object. *)
Lemma last_modified_of_served_witness :
  Http.Headers (Sample.response "Blocked:true" "Owner" Sample.metadata Sample.instant ∅)
    !! "Last-Modified"
  = if Time.IsZero Sample.instant then None
    else Some [Sample.formatHTTPDate Sample.instant].
Proof.
  apply (last_modified_of_served
           (Sample.flags "Blocked:true" "Owner")
           (Sample.client Sample.metadata Sample.instant)
           Sample.parseHTTPDate Sample.formatHTTPDate (Sample.request ∅)
           (Sample.attrs Sample.metadata Sample.instant));
    vm_compute; reflexivity.
Defined.

(** The sample object when the backend refuses to open it. *)
Lemma reader_error_headers_witness :
  carries
    (Http.Headers (respond (Sample.flags "Blocked:true" "Owner")
                     (Sample.unreadable Sample.metadata Sample.instant
                        (errorString "storage: permission denied"))
                     Sample.parseHTTPDate Sample.formatHTTPDate (Sample.request ∅))
       !! "X-Goog-Meta-Owner")
    (metaValues (Sample.flags "Blocked:true" "Owner")
                (Sample.attrs Sample.metadata Sample.instant) "X-Goog-Meta-Owner").
Proof.
  destruct (reader_error_headers
              (Sample.flags "Blocked:true" "Owner")
              (Sample.unreadable Sample.metadata Sample.instant
                 (errorString "storage: permission denied"))
              Sample.parseHTTPDate Sample.formatHTTPDate (Sample.request ∅)
              (Sample.attrs Sample.metadata Sample.instant)
              (errorString "storage: permission denied"))
    as (_ & _ & Hmeta & _); try (vm_compute; reflexivity).
  apply Hmeta; discriminate.
Defined.

(** The sample object, updated half a second after [Sample.date], asked for
    again with the date it was served with. *)
Lemma revalidation_not_modified_witness :
  Http.Status (Sample.response "Blocked:true" "Owner" Sample.metadata
                 (Sample.instant + 500000000)
                 (Sample.ifModifiedSinceHeader
                    (Sample.formatHTTPDate (Sample.instant + 500000000)))) = 304 /\
  Http.Body (Sample.response "Blocked:true" "Owner" Sample.metadata
               (Sample.instant + 500000000)
               (Sample.ifModifiedSinceHeader
                  (Sample.formatHTTPDate (Sample.instant + 500000000)))) = EmptyString.
Proof.
  apply (revalidation_not_modified
           (Sample.flags "Blocked:true" "Owner")
           (Sample.client Sample.metadata (Sample.instant + 500000000))
           Sample.parseHTTPDate Sample.formatHTTPDate
           (Sample.request (Sample.ifModifiedSinceHeader
                              (Sample.formatHTTPDate (Sample.instant + 500000000))))
           (Sample.attrs Sample.metadata (Sample.instant + 500000000)) []);
    vm_compute; reflexivity.
Defined.

(** A missing object, under the flags without [-block-if] and under the
    sample flags. *)
Lemma attrs_error_ignores_flags_witness :
  respond (Sample.flags EmptyString "Owner") (Sample.client Sample.metadata Sample.instant)
          Sample.parseHTTPDate Sample.formatHTTPDate (Sample.requestMissing ∅)
  = respond (Sample.flags "Blocked:true" "Owner")
            (Sample.client Sample.metadata Sample.instant)
            Sample.parseHTTPDate Sample.formatHTTPDate (Sample.requestMissing ∅) /\
  Http.Status (respond (Sample.flags EmptyString "Owner")
                 (Sample.client Sample.metadata Sample.instant)
                 Sample.parseHTTPDate Sample.formatHTTPDate (Sample.requestMissing ∅))
  = errorStatus ErrObjectNotExist /\
  Http.Body (respond (Sample.flags EmptyString "Owner")
               (Sample.client Sample.metadata Sample.instant)
               Sample.parseHTTPDate Sample.formatHTTPDate (Sample.requestMissing ∅))
  = Error ErrObjectNotExist +:+ newline.
Proof.
  apply (attrs_error_ignores_flags
           (Sample.flags EmptyString "Owner")
           (Sample.client Sample.metadata Sample.instant)
           Sample.parseHTTPDate Sample.formatHTTPDate
           (Sample.flags "Blocked:true" "Owner")
           (Sample.requestMissing ∅) ErrObjectNotExist).
  reflexivity.
Defined.

(** The keys [owner] and [Owner], visited in the two possible orders. *)
Lemma metadata_order_permutes_values_witness :
  match Http.hdr (writeMetadataHeaders_range (Sample.flags "Blocked:true" "owner,Owner")
                    [("owner", "alice"); ("Owner", "bob")] Http.newResponseWriter)
          !! "X-Goog-Meta-Owner",
        Http.hdr (writeMetadataHeaders_range (Sample.flags "Blocked:true" "owner,Owner")
                    [("Owner", "bob"); ("owner", "alice")] Http.newResponseWriter)
          !! "X-Goog-Meta-Owner" with
  | Some vs1, Some vs2 => vs1 ≡ₚ vs2
  | None, None => True
  | _, _ => False
  end.
Proof.
  destruct (metadata_order_permutes_values
              (Sample.flags "Blocked:true" "owner,Owner")
              [("owner", "alice"); ("Owner", "bob")]
              [("Owner", "bob"); ("owner", "alice")]
              Http.newResponseWriter (perm_swap _ _ _)) as (_ & _ & Hvalues & _).
  exact (Hvalues "X-Goog-Meta-Owner").
Defined.

(** A request that came through a proxy, answered by the handler under
    [wrapper]. *)
Lemma access_line_address_witness :
  (wrapper (Sample.verboseFlags "Blocked:true" "Owner") Sample.formatSeconds
     (proxy_on _ wrapWriter (Sample.verboseFlags "Blocked:true" "Owner")
        (Sample.client Sample.metadata Sample.instant)
        Sample.parseHTTPDate Sample.formatHTTPDate)
     100 12000100 Http.newResponseWriter
     (Sample.serverRequest {["X-Forwarded-For" := ["192.0.2.1"; "198.51.100.2"]]})).2
  = ["[192.0.2.1] 0.012 200 GET /b1/a.txt"].
Proof.
  destruct (access_line_address
              (Sample.verboseFlags "Blocked:true" "Owner") Sample.formatSeconds
              (proxy_on _ wrapWriter (Sample.verboseFlags "Blocked:true" "Owner")
                 (Sample.client Sample.metadata Sample.instant)
                 Sample.parseHTTPDate Sample.formatHTTPDate)
              100 12000100 Http.newResponseWriter
              (Sample.serverRequest {["X-Forwarded-For" := ["192.0.2.1"; "198.51.100.2"]]})
              eq_refl) as (_ & Hforwarded & _).
  rewrite (Hforwarded "192.0.2.1" ["198.51.100.2"] eq_refl).
  vm_compute. reflexivity.
Defined.

(** Two calls of [WriteHeader] on a fresh wrapped writer: 404 then 500,
    and the informational 103 then 200. *)
Lemma wrap_WriteHeader_twice_witness :
  (status (wrap_WriteHeader
             (wrap_WriteHeader
                {| ResponseWriter := Http.newResponseWriter; status := 200 |} 404) 500)
   = 500 /\
   Http.Status
     (Http.finish
        (ResponseWriter
           (wrap_WriteHeader
              (wrap_WriteHeader
                 {| ResponseWriter := Http.newResponseWriter; status := 200 |} 404) 500)))
   = 404) /\
  (status (wrap_WriteHeader
             (wrap_WriteHeader
                {| ResponseWriter := Http.newResponseWriter; status := 200 |} 103) 200)
   = 200 /\
   Http.Status
     (Http.finish
        (ResponseWriter
           (wrap_WriteHeader
              (wrap_WriteHeader
                 {| ResponseWriter := Http.newResponseWriter; status := 200 |} 103) 200)))
   = 200).
Proof.
  split.
  - apply (wrap_WriteHeader_twice
             {| ResponseWriter := Http.newResponseWriter; status := 200 |} 404 500);
      [reflexivity | lia | lia].
  - apply (wrap_WriteHeader_twice
             {| ResponseWriter := Http.newResponseWriter; status := 200 |} 103 200);
      [reflexivity | lia | lia].
Defined.

(** X18: an [If-Modified-Since] header that does not parse is passed over
    for every object whose update time, truncated to whole seconds, is after
    the zero time: the response is the one to the same request without the
    header, and with [-v] the error of the parser is the one line logged. *)
Theorem unparsable_date_ignored (flags : Flags) (client : Storage.Client)
    (parseHTTPDate : string -> result Time.t) (formatHTTPDate : Time.t -> string)
    (r : Http.Request) (attr : Storage.ObjectAttrs) (lastStr : string)
    (rest : list string) (e : error) :
  Storage.ObjectAttrsOf client (objectOf r) = Ok attr ->
  isBlocked flags attr = (false, None) ->
  Http.Header_ r !! "If-Modified-Since" = Some (lastStr :: rest) ->
  parseHTTPDate lastStr = Err e ->
  Time.zero < Time.Truncate (Storage.Updated attr) Time.Second ->
  respond flags client parseHTTPDate formatHTTPDate r
  = respond flags client parseHTTPDate formatHTTPDate (withoutIfModifiedSince r) /\
  (proxy flags client parseHTTPDate formatHTTPDate Http.newResponseWriter r).2
  = if deref (verbose flags)
    then ["could not parse If-Modified-Since: " +:+ Error e] else [].
Proof.
  intros Ha Hb Hh Hp Hlt.
  assert (Hafter : Time.After (Time.Truncate (Storage.Updated attr) Time.Second) Time.zero
                   = true) by now apply Z.ltb_lt.
  split.
  - exact (resp_unparsed_date flags client parseHTTPDate formatHTTPDate
             r attr lastStr rest e Ha Hh Hp Hafter).
  - unfold proxy. rewrite Ha, Hb. unfold ifModifiedSince, Http.ParseTime.
    rewrite Hh, Hp, Hafter. reflexivity.
Qed.

(** The sample object asked for with [If-Modified-Since: yesterday]. *)
Lemma unparsable_date_ignored_witness :
  Sample.response "Blocked:true" "Owner" Sample.metadata Sample.instant
    (Sample.ifModifiedSinceHeader "yesterday")
  = respond (Sample.flags "Blocked:true" "Owner")
      (Sample.client Sample.metadata Sample.instant)
      Sample.parseHTTPDate Sample.formatHTTPDate
      (withoutIfModifiedSince (Sample.request (Sample.ifModifiedSinceHeader "yesterday"))) /\
  (proxy (Sample.flags "Blocked:true" "Owner")
     (Sample.client Sample.metadata Sample.instant)
     Sample.parseHTTPDate Sample.formatHTTPDate Http.newResponseWriter
     (Sample.request (Sample.ifModifiedSinceHeader "yesterday"))).2
  = if deref (verbose (Sample.flags "Blocked:true" "Owner"))
    then ["could not parse If-Modified-Since: "
          +:+ Error (errorString "parsing time: yesterday")]
    else [].
Proof.
  apply (unparsable_date_ignored
           (Sample.flags "Blocked:true" "Owner")
           (Sample.client Sample.metadata Sample.instant)
           Sample.parseHTTPDate Sample.formatHTTPDate
           (Sample.request (Sample.ifModifiedSinceHeader "yesterday"))
           (Sample.attrs Sample.metadata Sample.instant)
           "yesterday" [] (errorString "parsing time: yesterday"));
    vm_compute; reflexivity.
Defined.
